(** * Secret_message/secret_message.py: the coordinate grid renderer

    A shallow embedding of [decode_secret_message_from_text] and of the
    built-in string and list operations it calls, followed by the
    properties of the renderer.

    Conventions.
    - A Python [str] is a [string]; its characters are the code points
      U+0000..U+00FF, one [ascii] each.  [isspace] and [islinebreak] are
      CPython's tables restricted to that range, and the only decimal
      digits in it are "0".."9".
    - A raised exception is the [Raise] outcome of a [result].  The
      [ValueError] of [int()] is caught two lines below the call, so
      [py_int] returns an [option] and [None] stands for the caught error.
    - Integers are unbounded ([Z]), as in Python.
    - [build_grid] builds the grid of line 67 whatever its size.  The
      interpreter raises MemoryError there when the grid does not fit in
      memory; [build_grid_within] has that outcome, for a given test of
      which grids can be allocated. *)

From Stdlib Require Import ZArith Ascii String Lia.
From stdpp Require Import base option list strings.

Local Open Scope string_scope.
Local Open Scope list_scope.
Local Open Scope Z_scope.

(** ** Outcomes *)

Inductive exn : Set :=
| ValueError
| IndexError
| AssertionError
| MemoryError.

Inductive result (A : Type) : Type :=
| Ok (a : A)
| Raise (e : exn).
Arguments Ok {A} a.
Arguments Raise {A} e.

#[global] Instance result_ret : MRet result := fun A a => Ok a.
#[global] Instance result_bind : MBind result := fun A B k r =>
  match r with
  | Ok a => k a
  | Raise e => Raise e
  end.

(** ** Characters *)

Definition code (c : ascii) : N := N_of_ascii c.

(** [str.isspace] on one character: TAB..CR, FS..US, SPACE, NEL, NBSP. *)
Definition isspace (c : ascii) : bool :=
  let n := code c in
  ((9 <=? n) && (n <=? 13) || (28 <=? n) && (n <=? 32)
   || (n =? 133) || (n =? 160))%N.

(** The line boundaries of [str.splitlines]: LF, VT, FF, CR, FS, GS, RS, NEL. *)
Definition islinebreak (c : ascii) : bool :=
  let n := code c in
  ((10 <=? n) && (n <=? 13) || (28 <=? n) && (n <=? 30) || (n =? 133))%N.

Definition is_underscore (c : ascii) : bool := (code c =? 95)%N.

Definition digit_value (c : ascii) : option Z :=
  let n := code c in
  if ((48 <=? n) && (n <=? 57))%N then Some (Z.of_N n - 48) else None.

Definition LF : string := String "010" "".

(** ** Built-in string operations *)

(** [s.splitlines()]: a line ends at a line boundary, CR LF counts as one
    boundary, and no empty line follows a final boundary. *)
Fixpoint splitlines (s : string) : list string :=
  match s with
  | "" => []
  | String c s' =>
      if islinebreak c then
        "" :: match s' with
              | String c' s'' =>
                  if ((code c =? 13) && (code c' =? 10))%N then splitlines s''
                  else splitlines s'
              | "" => []
              end
      else match splitlines s' with
           | [] => [String c ""]
           | l :: ls => String c l :: ls
           end
  end.

Fixpoint lstrip (s : string) : string :=
  match s with
  | "" => ""
  | String c s' => if isspace c then lstrip s' else s
  end.

Fixpoint rstrip (s : string) : string :=
  match s with
  | "" => ""
  | String c s' =>
      match rstrip s' with
      | "" => if isspace c then "" else String c ""
      | r => String c r
      end
  end.

(** [s.strip()] *)
Definition strip (s : string) : string := rstrip (lstrip s).

(** [s.split()]: the maximal runs of non-whitespace characters. *)
Fixpoint split (s : string) : list string :=
  match s with
  | "" => []
  | String c s' =>
      if isspace c then split s'
      else match s' with
           | "" => [String c ""]
           | String c' _ =>
               if isspace c' then String c "" :: split s'
               else match split s' with
                    | [] => [String c ""]
                    | t :: ts => String c t :: ts
                    end
           end
  end.

(** The digit scan of [int()]: digits with single underscores between
    them; returns the value and the number of digits. *)
Fixpoint scan_digits (prev_us : bool) (acc : Z) (digits : nat) (s : string)
  : option (Z * nat) :=
  match s with
  | "" => if prev_us then None else Some (acc, digits)
  | String c s' =>
      if is_underscore c then
        if prev_us then None else scan_digits true acc digits s'
      else match digit_value c with
           | Some d => scan_digits false (acc * 10 + d) (S digits) s'
           | None => None
           end
  end.

(** ** Built-in list operations *)

(** [max(l)]: raises [ValueError] on an empty sequence. *)
Definition py_max (l : list Z) : result Z :=
  match l with
  | [] => Raise ValueError
  | x :: xs => Ok (foldl Z.max x xs)
  end.

(** The position a subscript [l[i]] denotes: a negative [i] counts from
    the end, and a position outside the list raises [IndexError]. *)
Definition subscript {A} (l : list A) (i : Z) : result nat :=
  let i' := if i <? 0 then i + Z.of_nat (length l) else i in
  if (0 <=? i') && (i' <? Z.of_nat (length l)) then Ok (Z.to_nat i')
  else Raise IndexError.

(** [sep.join(l)] is [String.concat sep l]. *)

(** ** The renderer *)

Definition entry : Type := string * Z * Z.
Definition entry_char (e : entry) : string := e.1.1.
Definition entry_x (e : entry) : Z := e.1.2.
Definition entry_y (e : entry) : Z := e.2.

(** The grid is a list of rows; the comprehension that builds it makes a
    fresh list for every row, so no two rows are the same object and an
    assignment to one row leaves the others as they are. *)
Abbreviation grid_t := (list (list string)) (only parsing).

(** [grid[y][x] = char] *)
Definition setcell (grid : grid_t) (e : entry) : result grid_t :=
  let '(char, x, y) := e in
  j ← subscript grid y;
  match grid !! j with
  | Some row => i ← subscript row x; Ok (<[j := <[i := char]> row]> grid)
  | None => Raise IndexError
  end.

(** [for char, x, y in coords: grid[y][x] = char] *)
Fixpoint place (grid : grid_t) (coords : list entry) : result grid_t :=
  match coords with
  | [] => Ok grid
  | e :: rest => g ← setcell grid e; place g rest
  end.

(** Lines 64-69: the bounds, the blank grid and the placement loop. *)
Definition build_grid (coords : list entry) : result grid_t :=
  max_x ← py_max (entry_x <$> coords);
  max_y ← py_max (entry_y <$> coords);
  let grid := replicate (Z.to_nat (max_y + 1))
                (replicate (Z.to_nat (max_x + 1)) " ") in
  place grid coords.

(** Line 71: ["\n".join("".join(row) for row in grid)] *)
Definition join_rows (grid : grid_t) : string :=
  String.concat LF (String.concat "" <$> grid).

(** Lines 61-71. *)
Definition render (coords : list entry) : result string :=
  match coords with
  | [] => Ok ""
  | _ :: _ => grid ← build_grid coords; Ok (join_rows grid)
  end.

(** Line 46: the stripped, non-empty lines of the text. *)
Definition text_lines (text : string) : list string :=
  filter (fun ln => ln <> "") (strip <$> splitlines text).

Section Decode.

(** [sys.get_int_max_str_digits()]: the interpreter's limit on the number
    of digits [int()] converts, 0 when the limit is off or absent. *)
Variable int_max_str_digits : nat.

Definition exceeds_limit (digits : nat) : bool :=
  (640 <? digits)%nat && (0 <? int_max_str_digits)%nat
  && (int_max_str_digits <? digits)%nat.

(** [int(s)] on a token of [split]: an optional sign, then the digits.
    [None] is the [ValueError].  Tokens hold no whitespace, so the
    stripping [int()] starts with has nothing to remove. *)
Definition py_int (s : string) : option Z :=
  let '(sign, body) :=
    match s with
    | String c r =>
        if (code c =? 43)%N then (1, r)
        else if (code c =? 45)%N then (-1, r)
        else (1, s)
    | "" => (1, s)
    end in
  match body with
  | "" => None
  | String c _ =>
      if is_underscore c then None
      else match scan_digits false 0 0 body with
           | Some (v, digits) =>
               if exceeds_limit digits then None else Some (sign * v)
           | None => None
           end
  end.

(** Lines 50-59, the body of the parsing loop: [None] is [continue]. *)
Definition parse_line (line : string) : option entry :=
  match split line with
  | [char; xt; yt] =>
      match py_int xt, py_int yt with
      | Some x, Some y => Some (char, x, y)
      | _, _ => None
      end
  | _ => None
  end.

(** Lines 48-59: [coords] after the loop. *)
Definition parse_coords (text : string) : list entry :=
  omap parse_line (text_lines text).

Definition decode_secret_message_from_text (text : string) : result string :=
  render (parse_coords text).

End Decode.

Definition _SAMPLE : string :=
  "H 0 0
E 1 0
L 2 0
L 3 0
O 4 0
W 0 1
O 1 1
R 2 1
L 3 1
D 4 1
".

Definition _SAMPLE_EXPECT : string := "HELLO" +:+ LF +:+ "WORLD".

(** Lines 98-100: the assertion of the self-test. *)
Definition _self_test (int_max_str_digits : nat) : result unit :=
  out ← decode_secret_message_from_text int_max_str_digits _SAMPLE;
  if (out =? _SAMPLE_EXPECT)%string then Ok () else Raise AssertionError.

(** ** The renderer in bounded memory *)

Section Memory.

(** [allocates h w]: the interpreter has the memory for a grid of [h] rows
    and [w] columns. *)
Variable allocates : nat -> nat -> bool.

(** Lines 64-69, where the comprehension of line 67 raises MemoryError
    when the grid cannot be allocated. *)
Definition build_grid_within (coords : list entry) : result grid_t :=
  max_x ← py_max (entry_x <$> coords);
  max_y ← py_max (entry_y <$> coords);
  if allocates (Z.to_nat (max_y + 1)) (Z.to_nat (max_x + 1))
  then place (replicate (Z.to_nat (max_y + 1))
                (replicate (Z.to_nat (max_x + 1)) " ")) coords
  else Raise MemoryError.

Definition render_within (coords : list entry) : result string :=
  match coords with
  | [] => Ok ""
  | _ :: _ => grid ← build_grid_within coords; Ok (join_rows grid)
  end.

Definition decode_within (int_max_str_digits : nat) (text : string)
  : result string :=
  render_within (parse_coords int_max_str_digits text).

End Memory.

(** ** Vocabulary of the statements *)

(** The position a subscript [i] denotes in a list of [n] elements, and
    whether the list has that position. *)
Definition position (n : nat) (i : Z) : Z :=
  if i <? 0 then i + Z.of_nat n else i.

Definition in_range (n : nat) (i : Z) : bool :=
  (0 <=? position n i) && (position n i <? Z.of_nat n).

(** In a grid of [h] rows and [w] columns: the entry's cell exists;
    the entry's cell is row [r], column [k]. *)
Definition fits (h w : nat) (e : entry) : bool :=
  in_range h (entry_y e) && in_range w (entry_x e).

Definition hits (h w : nat) (e : entry) (r k : nat) : bool :=
  (Z.to_nat (position h (entry_y e)) =? r)%nat
  && (Z.to_nat (position w (entry_x e)) =? k)%nat.

(** What cell [(r, k)] holds once the entries are written in order over
    the value [v]. *)
Definition write (h w r k : nat) (v : string) (e : entry) : string :=
  if hits h w e r k then entry_char e else v.

Definition cell (h w : nat) (coords : list entry) (r k : nat) : string :=
  foldl (write h w r k) " " coords.

(** The grid whose cell [(r, k)] is [f r k]. *)
Definition table (h w : nat) (f : nat -> nat -> string) : grid_t :=
  (fun r => f r <$> seq 0 w) <$> seq 0 h.

(** The numbers of rows and columns of the grid: [max_y + 1] and
    [max_x + 1], none when that is not positive. *)
Definition height (coords : list entry) : nat :=
  match py_max (entry_y <$> coords) with
  | Ok max_y => Z.to_nat (max_y + 1)
  | Raise _ => 0
  end.

Definition width (coords : list entry) : nat :=
  match py_max (entry_x <$> coords) with
  | Ok max_x => Z.to_nat (max_x + 1)
  | Raise _ => 0
  end.

(** Texts: every character satisfies [p]; only whitespace; no line
    boundary. *)
Fixpoint all_chars (p : ascii -> bool) (s : string) : bool :=
  match s with
  | "" => true
  | String c s' => p c && all_chars p s'
  end.

Definition blank (s : string) : bool := all_chars isspace s.

Definition one_line (s : string) : bool :=
  all_chars (fun c => negb (islinebreak c)) s.

(** A line is well formed when it splits into exactly three tokens of
    which the second and the third parse as integers. *)
Definition well_formed (int_max_str_digits : nat) (line : string) : bool :=
  match split line with
  | [_; xt; yt] =>
      match py_int int_max_str_digits xt, py_int int_max_str_digits yt with
      | Some _, Some _ => true
      | _, _ => false
      end
  | _ => false
  end.

Definition nonneg (e : entry) : Prop := 0 <= entry_x e /\ 0 <= entry_y e.

Definition entry_xy (e : entry) : Z * Z := (entry_x e, entry_y e).

(** CPython's default for [int_max_str_digits]. *)
Definition default_max_str_digits : nat := 4300.

(** A token: not empty, and no whitespace in it. *)
Definition is_token (t : string) : bool :=
  negb (t =? "")%string && all_chars (fun c => negb (isspace c)) t.

(** The entry's subscripts exist in a grid with the bounds [max_x], [max_y]. *)
Definition in_bounds (max_x max_y : Z) (e : entry) : Prop :=
  - (max_x + 1) <= entry_x e /\ - (max_y + 1) <= entry_y e.

Definition single_char (e : entry) : Prop :=
  String.length (entry_char e) = 1%nat.

(** The token of the last entry of [coords] at [(x, y)], a space when
    there is none. *)
Definition last_at (coords : list entry) (x y : Z) : string :=
  foldl (fun v e =>
           if (entry_x e =? x) && (entry_y e =? y) then entry_char e else v)
    " " coords.

(** The text is empty or begins with whitespace. *)
Definition starts_blank (s : string) : Prop :=
  s = "" \/ exists c s', s = String c s' /\ isspace c = true.

(** ** Subscripts and tables *)

Lemma bind_Ok {A B} (a : A) (k : A -> result B) : Ok a ≫= k = k a.
Proof. reflexivity. Qed.

Lemma bind_Raise {A B} (e : exn) (k : A -> result B) : Raise e ≫= k = Raise e.
Proof. reflexivity. Qed.

Lemma subscript_position {A} (l : list A) (i : Z) :
  subscript l i =
    if in_range (length l) i then Ok (Z.to_nat (position (length l) i))
    else Raise IndexError.
Proof. reflexivity. Qed.

Lemma in_range_lt (n : nat) (i : Z) :
  in_range n i = true -> (Z.to_nat (position n i) < n)%nat.
Proof.
  unfold in_range. intros H.
  apply andb_true_iff in H as [H1 H2].
  apply Z.leb_le in H1. apply Z.ltb_lt in H2. lia.
Qed.

Lemma length_table h w f : length (table h w f) = h.
Proof. unfold table. by rewrite length_fmap, length_seq. Qed.

Lemma table_lookup h w f r :
  (r < h)%nat -> table h w f !! r = Some (f r <$> seq 0 w).
Proof.
  intros Hr. unfold table.
  by rewrite list_lookup_fmap, lookup_seq_lt.
Qed.

Lemma table_lookup_cell h w f r k :
  (r < h)%nat -> (k < w)%nat ->
  table h w f !! r ≫= (fun row => row !! k) = Some (f r k).
Proof.
  intros Hr Hk. rewrite table_lookup by done. cbn.
  by rewrite list_lookup_fmap, lookup_seq_lt.
Qed.

Lemma replicate_table h w (v : string) :
  replicate h (replicate w v) = table h w (fun _ _ => v).
Proof.
  unfold table.
  assert (Hrow : forall n (a : string) (g : nat -> string) m,
             (forall j, g j = a) -> replicate n a = g <$> seq m n).
  { induction n as [|n IH]; intros a g m Hg; simpl; [done|].
    rewrite Hg. f_equal. by apply IH. }
  assert (Hrows : forall n (a : list string) m,
             replicate n a = (fun _ => a) <$> seq m n).
  { induction n as [|n IH]; intros a m; simpl; [done|].
    f_equal. apply IH. }
  rewrite (Hrow w v (fun _ => v) 0%nat) by done. apply Hrows.
Qed.

Lemma fmap_seq_insert {A} (g : nat -> A) (n i : nat) (v : A) :
  (i < n)%nat ->
  <[i := v]> (g <$> seq 0 n) = (fun j => if (i =? j)%nat then v else g j) <$> seq 0 n.
Proof.
  intros Hi. apply list_eq. intros j.
  rewrite list_lookup_insert, !list_lookup_fmap, length_fmap, length_seq.
  destruct (decide (j < n)%nat) as [Hj|Hj].
  - rewrite lookup_seq_lt by done. simpl.
    destruct (Nat.eqb_spec i j) as [->|Hne].
    + by rewrite decide_True.
    + rewrite decide_False; [done|]. by intros [? _].
  - rewrite lookup_seq_ge by lia. simpl. case_decide; [lia|done].
Qed.

Lemma table_insert h w f r k (c : string) :
  (r < h)%nat -> (k < w)%nat ->
  <[r := <[k := c]> (f r <$> seq 0 w)]> (table h w f)
  = table h w (fun r' k' => if (r =? r')%nat && (k =? k')%nat then c else f r' k').
Proof.
  intros Hr Hk. unfold table.
  rewrite fmap_seq_insert by done.
  apply list_fmap_ext. intros _ r' _.
  destruct (Nat.eqb_spec r r') as [->|Hne]; simpl; [|done].
  by rewrite fmap_seq_insert.
Qed.

(** ** The placement loop computes a table *)

Lemma setcell_table h w f e :
  setcell (table h w f) e =
    if fits h w e then Ok (table h w (fun r k => write h w r k (f r k) e))
    else Raise IndexError.
Proof.
  destruct e as [[c x] y]. unfold setcell, fits. simpl.
  rewrite subscript_position, length_table.
  destruct (in_range h y) eqn:Hy; [|done]. cbn.
  rewrite table_lookup by by apply in_range_lt.
  rewrite subscript_position, length_fmap, length_seq.
  destruct (in_range w x) eqn:Hx; [|done]. cbn.
  rewrite table_insert by by apply in_range_lt. done.
Qed.

Lemma place_table h w coords : forall f,
  place (table h w f) coords =
    if forallb (fits h w) coords
    then Ok (table h w (fun r k => foldl (write h w r k) (f r k) coords))
    else Raise IndexError.
Proof.
  induction coords as [|e rest IH]; intros f; simpl; [done|].
  rewrite setcell_table. destruct (fits h w e); [|done]. cbn.
  by rewrite IH.
Qed.

(** Lines 64-69 in closed form: the loop fails exactly when some entry
    has no cell, and otherwise every cell holds what was written last. *)
Lemma build_grid_table coords :
  coords <> [] ->
  build_grid coords =
    if forallb (fits (height coords) (width coords)) coords
    then Ok (table (height coords) (width coords)
               (cell (height coords) (width coords) coords))
    else Raise IndexError.
Proof.
  intros Hne. destruct coords as [|e rest]; [done|].
  unfold build_grid, height, width.
  change (py_max (entry_x <$> e :: rest))
    with (Ok (foldl Z.max (entry_x e) (entry_x <$> rest))).
  change (py_max (entry_y <$> e :: rest))
    with (Ok (foldl Z.max (entry_y e) (entry_y <$> rest))).
  rewrite !bind_Ok. cbv beta zeta.
  by rewrite replicate_table, place_table.
Qed.

(** ** The bounds *)

Lemma foldl_max_spec (xs : list Z) : forall x,
  (foldl Z.max x xs = x \/ foldl Z.max x xs ∈ xs)
  /\ x <= foldl Z.max x xs
  /\ Forall (fun v => v <= foldl Z.max x xs) xs.
Proof.
  induction xs as [|a xs IH]; intros x; simpl.
  - repeat split; [by left | lia | constructor].
  - destruct (IH (Z.max x a)) as (Hin & Hle & Hall).
    repeat split.
    + destruct Hin as [Heq|Hin]; [|right; by constructor].
      rewrite Heq. destruct (Z.max_spec x a) as [[_ ->]|[_ ->]];
        [right; constructor | by left].
    + lia.
    + constructor; [lia | done].
Qed.

Lemma py_max_spec (l : list Z) :
  l <> [] ->
  exists m, py_max l = Ok m /\ m ∈ l /\ Forall (fun v => v <= m) l.
Proof.
  destruct l as [|x xs]; [done|]. intros _.
  exists (foldl Z.max x xs). simpl.
  destruct (foldl_max_spec xs x) as (Hin & Hle & Hall).
  repeat split.
  - destruct Hin as [->|Hin]; [constructor | by constructor].
  - by constructor.
Qed.

(** [max] depends on the elements only, not on order or repetition. *)
Lemma py_max_ext (l1 l2 : list Z) :
  (forall v, v ∈ l1 <-> v ∈ l2) -> py_max l1 = py_max l2.
Proof.
  intros Hiff.
  destruct l1 as [|x1 xs1].
  { destruct l2 as [|x2 xs2]; [done|].
    exfalso. apply (not_elem_of_nil x2), Hiff. constructor. }
  destruct l2 as [|x2 xs2].
  { exfalso. apply (not_elem_of_nil x1), Hiff. constructor. }
  destruct (py_max_spec (x1 :: xs1)) as (m1 & -> & Hin1 & Hle1); [done|].
  destruct (py_max_spec (x2 :: xs2)) as (m2 & -> & Hin2 & Hle2); [done|].
  f_equal.
  rewrite Forall_forall in Hle1, Hle2.
  apply Hiff in Hin1. apply Hiff in Hin2.
  apply Hle2 in Hin1. apply Hle1 in Hin2. lia.
Qed.

Lemma height_ext (c1 c2 : list entry) :
  (forall v, v ∈ entry_y <$> c1 <-> v ∈ entry_y <$> c2) -> height c1 = height c2.
Proof. intros H. unfold height. by rewrite (py_max_ext _ _ H). Qed.

Lemma width_ext (c1 c2 : list entry) :
  (forall v, v ∈ entry_x <$> c1 <-> v ∈ entry_x <$> c2) -> width c1 = width c2.
Proof. intros H. unfold width. by rewrite (py_max_ext _ _ H). Qed.

Lemma entry_below_height (coords : list entry) (e : entry) :
  e ∈ coords -> 0 <= entry_y e -> entry_y e < Z.of_nat (height coords).
Proof.
  intros Hin Hy. unfold height.
  destruct (py_max_spec (entry_y <$> coords)) as (m & -> & _ & Hle).
  { intros Hnil. apply fmap_nil_inv in Hnil. subst. by apply not_elem_of_nil in Hin. }
  rewrite Forall_forall in Hle.
  assert (entry_y e <= m) by (apply Hle; by apply list_elem_of_fmap_2).
  lia.
Qed.

Lemma entry_below_width (coords : list entry) (e : entry) :
  e ∈ coords -> 0 <= entry_x e -> entry_x e < Z.of_nat (width coords).
Proof.
  intros Hin Hx. unfold width.
  destruct (py_max_spec (entry_x <$> coords)) as (m & -> & _ & Hle).
  { intros Hnil. apply fmap_nil_inv in Hnil. subst. by apply not_elem_of_nil in Hin. }
  rewrite Forall_forall in Hle.
  assert (entry_x e <= m) by (apply Hle; by apply list_elem_of_fmap_2).
  lia.
Qed.

Lemma position_nonneg (n : nat) (i : Z) : 0 <= i -> position n i = i.
Proof. intros Hi. unfold position. destruct (Z.ltb_spec i 0); [lia|done]. Qed.

Lemma in_range_nonneg (n : nat) (i : Z) :
  0 <= i -> i < Z.of_nat n -> in_range n i = true.
Proof.
  intros H0 Hn. unfold in_range. rewrite position_nonneg by done.
  apply andb_true_iff. split; [by apply Z.leb_le | by apply Z.ltb_lt].
Qed.

(** An entry with non-negative coordinates always has its cell. *)
Lemma nonneg_fits (coords : list entry) (e : entry) :
  e ∈ coords -> 0 <= entry_x e -> 0 <= entry_y e ->
  fits (height coords) (width coords) e = true.
Proof.
  intros Hin Hx Hy. unfold fits. apply andb_true_iff. split.
  - apply in_range_nonneg; [done | by apply entry_below_height].
  - apply in_range_nonneg; [done | by apply entry_below_width].
Qed.

(** ** What a cell holds *)

Lemma table_ext h w f g :
  (forall r k, (r < h)%nat -> (k < w)%nat -> f r k = g r k) ->
  table h w f = table h w g.
Proof.
  intros Hfg. unfold table.
  apply list_fmap_ext. intros i r Hr.
  apply lookup_seq in Hr as [-> Hi].
  apply list_fmap_ext. intros j k Hk.
  apply lookup_seq in Hk as [-> Hj]. by apply Hfg.
Qed.

Lemma foldl_write_miss h w r k (l : list entry) : forall v,
  Forall (fun e => hits h w e r k = false) l ->
  foldl (write h w r k) v l = v.
Proof.
  induction l as [|e l IH]; intros v Hl; simpl; [done|].
  inversion Hl as [|? ? He Hl']; subst.
  rewrite IH by done. unfold write. by rewrite He.
Qed.

Lemma foldl_write_last h w r k (l1 l2 : list entry) (e : entry) v :
  hits h w e r k = true ->
  Forall (fun e' => hits h w e' r k = false) l2 ->
  foldl (write h w r k) v (l1 ++ e :: l2) = entry_char e.
Proof.
  intros He Hl2. rewrite foldl_app. simpl.
  rewrite foldl_write_miss by done. unfold write. by rewrite He.
Qed.

(** An entry has no effect on a cell that a later entry with the same
    coordinates writes. *)
Lemma foldl_write_shadow h w r k (l2 l3 : list entry) (e1 e2 : entry) v :
  entry_x e1 = entry_x e2 -> entry_y e1 = entry_y e2 ->
  foldl (write h w r k) v (e1 :: l2 ++ e2 :: l3)
  = foldl (write h w r k) v (l2 ++ e2 :: l3).
Proof.
  intros Hx Hy. simpl. rewrite !foldl_app. simpl. f_equal.
  assert (Hh : hits h w e1 r k = hits h w e2 r k)
    by (unfold hits; by rewrite Hx, Hy).
  unfold write.
  destruct (hits h w e2 r k) eqn:He2; [done|]. by rewrite Hh.
Qed.

Lemma cell_blank h w coords r k :
  Forall (fun e => hits h w e r k = false) coords -> cell h w coords r k = " ".
Proof. apply foldl_write_miss. Qed.

(** A cell holds a space or the whole token of an entry written to it. *)
Lemma cell_value h w coords r k :
  cell h w coords r k = " "
  \/ exists e, e ∈ coords /\ hits h w e r k = true
               /\ cell h w coords r k = entry_char e.
Proof.
  unfold cell. generalize " " at 1 2 3 as v.
  induction coords as [|e rest IH] using rev_ind; intros v; simpl; [by left|].
  rewrite foldl_app. simpl. unfold write at 1 3.
  destruct (hits h w e r k) eqn:He.
  - right. exists e. split; [|done]. apply elem_of_app. right. constructor.
  - destruct (IH v) as [Hv|(e' & Hin & Hh & Hv)]; [by left|].
    right. exists e'. split; [|done]. apply elem_of_app. by left.
Qed.

Lemma build_grid_Ok coords g :
  build_grid coords = Ok g ->
  coords <> []
  /\ forallb (fits (height coords) (width coords)) coords = true
  /\ g = table (height coords) (width coords)
           (cell (height coords) (width coords) coords).
Proof.
  intros Hg.
  assert (Hne : coords <> []) by (intros ->; discriminate Hg).
  rewrite build_grid_table in Hg by done.
  destruct (forallb _ coords); [|discriminate Hg].
  by inversion Hg.
Qed.

Lemma build_grid_cell coords g r k :
  build_grid coords = Ok g ->
  (r < height coords)%nat -> (k < width coords)%nat ->
  g !! r ≫= (fun row => row !! k)
  = Some (cell (height coords) (width coords) coords r k).
Proof.
  intros Hg Hr Hk. apply build_grid_Ok in Hg as (_ & _ & ->).
  by apply table_lookup_cell.
Qed.

Lemma render_cons (e : entry) (rest : list entry) :
  render (e :: rest) =
    if forallb (fits (height (e :: rest)) (width (e :: rest))) (e :: rest)
    then Ok (join_rows (table (height (e :: rest)) (width (e :: rest))
                          (cell (height (e :: rest)) (width (e :: rest))
                             (e :: rest))))
    else Raise IndexError.
Proof.
  unfold render. rewrite build_grid_table by done.
  by destruct (forallb _ (e :: rest)).
Qed.

Lemma render_Ok coords out :
  coords <> [] -> render coords = Ok out ->
  exists g, build_grid coords = Ok g /\ out = join_rows g.
Proof.
  intros Hne Hr. destruct coords as [|e rest]; [done|].
  unfold render in Hr.
  destruct (build_grid (e :: rest)) as [g|err]; [|discriminate Hr].
  exists g. split; [done|]. by inversion Hr.
Qed.

(** The renderer returns whenever no coordinate is negative. *)
Lemma render_nonneg_returns coords :
  Forall nonneg coords ->
  exists out, render coords = Ok out.
Proof.
  intros Hpos. destruct coords as [|e rest]; [by exists ""|].
  rewrite render_cons.
  assert (Hfits : forallb (fits (height (e :: rest)) (width (e :: rest)))
                    (e :: rest) = true).
  { apply forallb_forall. intros e' Hin%list_elem_of_In.
    rewrite Forall_forall in Hpos. destruct (Hpos e' Hin).
    by apply nonneg_fits. }
  rewrite Hfits. eauto.
Qed.

(** ** Lines *)

Lemma string_pair_ind (P : string -> Prop) :
  P "" ->
  (forall c, P (String c "")) ->
  (forall c c' s, P s -> P (String c' s) -> P (String c (String c' s))) ->
  forall s, P s.
Proof.
  intros H0 H1 H2 s.
  assert (H : P s /\ forall c, P (String c s)); [|by destruct H].
  induction s as [|c' s [IHs IHc]]; [by split|].
  split; [apply IHc|]. intros c. by apply H2.
Qed.

Lemma splitlines_cons c s :
  splitlines (String c s) =
    if islinebreak c then
      "" :: match s with
            | String c' s'' =>
                if ((code c =? 13) && (code c' =? 10))%N then splitlines s''
                else splitlines s
            | "" => []
            end
    else match splitlines s with
         | [] => [String c ""]
         | l :: ls => String c l :: ls
         end.
Proof. reflexivity. Qed.

Lemma splitlines_cons_not_nil c s : splitlines (String c s) <> [].
Proof.
  simpl. destruct (islinebreak c); [done|].
  by destruct (splitlines s).
Qed.

(** A line boundary in the middle of a text separates the lines before it
    from the lines after it; at most an empty line comes between them. *)
Lemma splitlines_app_LF (b : string) : forall a,
  exists pad, (pad = [] \/ pad = [""])
    /\ splitlines (a +:+ LF +:+ b) = splitlines a ++ pad ++ splitlines b.
Proof.
  assert (HLF : splitlines (LF +:+ b) = "" :: splitlines b).
  { simpl. by destruct b. }
  induction a as [|c|c c' a IHa IHc] using string_pair_ind.
  - exists [""]. split; [by right|]. apply HLF.
  - change (String c "" +:+ LF +:+ b) with (String c (String "010" b)).
    simpl. destruct (islinebreak c) eqn:Hc.
    + destruct ((code c =? 13)%N) eqn:Hcr; simpl.
      * exists []. by split; [left|].
      * exists [""]. split; [by right|]. simpl. by destruct b.
    + exists []. split; [by left|]. simpl. by destruct b.
  - destruct IHa as (pa & Hpa & Ha). destruct IHc as (pc & Hpc & Hc').
    change (String c (String c' a) +:+ LF +:+ b)
      with (String c (String c' (a +:+ LF +:+ b))).
    change (String c' a +:+ LF +:+ b) with (String c' (a +:+ LF +:+ b)) in Hc'.
    rewrite (splitlines_cons c (String c' (a +:+ LF +:+ b))).
    rewrite (splitlines_cons c (String c' a)).
    destruct (islinebreak c) eqn:Hc.
    + destruct ((code c =? 13) && (code c' =? 10))%N.
      * exists pa. split; [done|]. by rewrite Ha.
      * exists pc. split; [done|]. by rewrite Hc'.
    + rewrite Hc'.
      destruct (splitlines (String c' a)) as [|l ls] eqn:Hl.
      { by apply splitlines_cons_not_nil in Hl. }
      exists pc. by split.
Qed.

Lemma all_chars_splitlines (p : ascii -> bool) : forall s,
  all_chars p s = true -> Forall (fun l => all_chars p l = true) (splitlines s).
Proof.
  induction s as [|c|c c' s IHs IHc] using string_pair_ind; intros Hs.
  - constructor.
  - simpl in *. destruct (islinebreak c); repeat constructor; done.
  - rewrite splitlines_cons.
    cbn [all_chars] in Hs, IHc.
    apply andb_true_iff in Hs as [Hc Hs].
    pose proof Hs as Hs'. apply andb_true_iff in Hs' as [Hc' Hs'].
    destruct (islinebreak c).
    + constructor; [done|].
      destruct ((code c =? 13) && (code c' =? 10))%N; [by apply IHs | by apply IHc].
    + specialize (IHc Hs).
      destruct (splitlines (String c' s)) as [|l ls]; [repeat constructor; simpl; by rewrite Hc|].
      inversion IHc as [|? ? Hl Hls]; subst.
      constructor; [|done]. simpl. by rewrite Hc, Hl.
Qed.

Lemma lstrip_blank s : blank s = true -> lstrip s = "".
Proof.
  induction s as [|c s IH]; simpl; [done|].
  intros [Hc Hs]%andb_true_iff. rewrite Hc. by apply IH.
Qed.

Lemma strip_blank s : blank s = true -> strip s = "".
Proof. intros Hs. unfold strip. by rewrite lstrip_blank. Qed.

(** A text of whitespace only has no line left after stripping. *)
Lemma text_lines_blank text : blank text = true -> text_lines text = [].
Proof.
  intros Hb. unfold text_lines.
  pose proof (all_chars_splitlines isspace text Hb) as Hall.
  induction Hall as [|l ls Hl _ IH]; [done|].
  rewrite fmap_cons, filter_cons_False; [done|].
  intros Hne. apply Hne. by apply strip_blank.
Qed.

Lemma splitlines_one_line s :
  one_line s = true ->
  splitlines s = match s with "" => [] | String _ _ => [s] end.
Proof.
  induction s as [|c s IH]; [done|].
  intros [Hc Hs]%andb_true_iff. rewrite splitlines_cons.
  apply negb_true_iff in Hc. rewrite Hc, IH by done.
  by destruct s.
Qed.

Lemma text_lines_one_line l :
  one_line l = true ->
  text_lines l = if decide (strip l = "") then [] else [strip l].
Proof.
  intros Hl. unfold text_lines. rewrite splitlines_one_line by done.
  destruct l as [|c l']; [done|].
  rewrite fmap_cons, fmap_nil.
  destruct (decide (strip (String c l') = "")) as [He|Hne].
  - by rewrite filter_cons_False by (by intros H; apply H).
  - by rewrite filter_cons_True.
Qed.

Lemma text_lines_app_LF a b :
  text_lines (a +:+ LF +:+ b) = text_lines a ++ text_lines b.
Proof.
  unfold text_lines.
  destruct (splitlines_app_LF b a) as (pad & Hpad & ->).
  rewrite !fmap_app, !filter_app.
  by destruct Hpad as [-> | ->].
Qed.

(** ** Tokens *)

Lemma rstrip_head c s :
  rstrip (String c s) = "" \/ exists r, rstrip (String c s) = String c r.
Proof.
  simpl. destruct (rstrip s); [|by eauto].
  destruct (isspace c); [by left | by eauto].
Qed.

Lemma rstrip_nil_blank s : rstrip s = "" -> blank s = true.
Proof.
  unfold blank. induction s as [|c s IH]; [done|]. simpl.
  destruct (rstrip s) eqn:Hr; [|done].
  destruct (isspace c) eqn:Hc; [|done]. intros _. by apply IH.
Qed.

Lemma split_cons c s :
  split (String c s) =
    if isspace c then split s
    else match s with
         | "" => [String c ""]
         | String c' _ =>
             if isspace c' then String c "" :: split s
             else match split s with
                  | [] => [String c ""]
                  | t :: ts => String c t :: ts
                  end
         end.
Proof. reflexivity. Qed.

Lemma split_blank s : blank s = true -> split s = [].
Proof.
  induction s as [|c s IH]; [done|].
  intros [Hc Hs]%andb_true_iff. rewrite split_cons, Hc. by apply IH.
Qed.

Lemma split_lstrip s : split (lstrip s) = split s.
Proof.
  induction s as [|c s IH]; [done|]. rewrite (split_cons c s). simpl.
  destruct (isspace c) eqn:Hc; [done|]. by rewrite split_cons, Hc.
Qed.

Lemma split_rstrip s : split (rstrip s) = split s.
Proof.
  induction s as [|c s IH]; [done|].
  destruct (rstrip s) as [|a r] eqn:Hr.
  - pose proof (rstrip_nil_blank s Hr) as Hb.
    rewrite (split_cons c s). simpl. rewrite Hr.
    destruct (isspace c) eqn:Hc.
    + by rewrite split_blank.
    + rewrite split_cons, Hc. destruct s as [|c' s']; [done|].
      pose proof Hb as Hb'. apply andb_true_iff in Hb' as [Hc' _].
      by rewrite Hc', split_blank.
  - assert (Hrs : rstrip (String c s) = String c (rstrip s))
      by (simpl; by rewrite Hr).
    rewrite <- Hr in IH. rewrite Hrs, !split_cons, IH.
    destruct (isspace c); [done|].
    destruct s as [|c' s']; [done|].
    destruct (rstrip_head c' s') as [Hnil|(r' & Hr')];
      [by rewrite Hnil in Hr|].
    by rewrite Hr'.
Qed.

(** Stripping a line changes none of its tokens. *)
Lemma split_strip s : split (strip s) = split s.
Proof. unfold strip. by rewrite split_rstrip, split_lstrip. Qed.

(** ** The parsing loop *)

Section Parsing.
Variable lim : nat.

Lemma parse_line_strip line : parse_line lim (strip line) = parse_line lim line.
Proof. unfold parse_line. by rewrite split_strip. Qed.

Lemma parse_line_well_formed line :
  parse_line lim line = None <-> well_formed lim line = false.
Proof.
  unfold parse_line, well_formed.
  destruct (split line) as [|c [|xt [|yt [|? ?]]]]; try done.
  by destruct (py_int lim xt), (py_int lim yt).
Qed.

(** The loop keeps a line with three tokens and two integers whatever
    the signs of the integers. *)
Lemma parse_line_keeps line c xt yt x y :
  split line = [c; xt; yt] -> py_int lim xt = Some x -> py_int lim yt = Some y ->
  parse_line lim line = Some (c, x, y).
Proof. intros Hs Hx Hy. unfold parse_line. by rewrite Hs, Hx, Hy. Qed.

Lemma parse_coords_app_LF a b :
  parse_coords lim (a +:+ LF +:+ b) = parse_coords lim a ++ parse_coords lim b.
Proof. unfold parse_coords. by rewrite text_lines_app_LF, omap_app. Qed.

Lemma parse_coords_one_line l :
  one_line l = true ->
  parse_coords lim l = match parse_line lim l with Some e => [e] | None => [] end.
Proof.
  intros Hl. unfold parse_coords. rewrite text_lines_one_line by done.
  rewrite <- (parse_line_strip l).
  destruct (decide (strip l = "")) as [->|Hne]; [done|].
  simpl. by destruct (parse_line lim (strip l)).
Qed.

Lemma omap_parse_well_formed (ls : list string) :
  omap (parse_line lim) (filter (well_formed lim) ls) = omap (parse_line lim) ls.
Proof.
  induction ls as [|l ls IH]; [done|].
  destruct (well_formed lim l) eqn:Hwf.
  - rewrite filter_cons_True by by rewrite Hwf. csimpl. by rewrite IH.
  - rewrite filter_cons_False by (rewrite Hwf; simpl; tauto). csimpl.
    apply parse_line_well_formed in Hwf. by rewrite Hwf.
Qed.

Lemma parse_coords_blank text : blank text = true -> parse_coords lim text = [].
Proof. intros Hb. unfold parse_coords. by rewrite text_lines_blank. Qed.

End Parsing.

(** ** The sample *)

(** C1.  For the ten-line sample (H 0 0, E 1 0, L 2 0, L 3 0, O 4 0,
    W 0 1, O 1 1, R 2 1, L 3 1, D 4 1, one entry per line) the renderer
    returns exactly "HELLO", a newline, "WORLD"; the self-test passes. *)
Theorem sample_renders_hello_world (lim : nat) :
  decode_secret_message_from_text lim _SAMPLE = Ok _SAMPLE_EXPECT
  /\ _self_test lim = Ok ().
Proof. split; vm_compute; reflexivity. Qed.

(** C9.  Rendering is one way: the sample renders to HELLO/WORLD, that
    output holds no coordinate line and renders to the empty string, so
    rendering the rendered sample does not give the rendered sample. *)
Theorem render_is_not_a_round_trip (lim : nat) :
  decode_secret_message_from_text lim _SAMPLE = Ok _SAMPLE_EXPECT
  /\ parse_coords lim _SAMPLE_EXPECT = []
  /\ decode_secret_message_from_text lim _SAMPLE_EXPECT = Ok ""
  /\ decode_secret_message_from_text lim _SAMPLE
       ≫= decode_secret_message_from_text lim
     <> decode_secret_message_from_text lim _SAMPLE.
Proof.
  repeat split; try (vm_compute; reflexivity).
  vm_compute. discriminate.
Qed.

(** ** Filtering *)

(** C5.  When no line survives the filtering as an entry, the renderer
    returns the empty string; this is the case of the empty text and of
    every text made of blank or whitespace-only lines. *)
Theorem no_entry_renders_empty (lim : nat) (text : string) :
  parse_coords lim text = [] \/ blank text = true ->
  decode_secret_message_from_text lim text = Ok "".
Proof.
  intros H. unfold decode_secret_message_from_text.
  assert (Hnil : parse_coords lim text = []).
  { destruct H as [H|H]; [done | by apply parse_coords_blank]. }
  by rewrite Hnil.
Qed.

(** C4.  A malformed line, one that does not split into exactly three
    tokens or whose second or third token is no integer, is dropped and
    leaves the rest of the rendering as it is: taking the line out of the
    text does not change the result, and two texts with the same
    well-formed lines render alike.  In particular "X 1 2 3" before
    "A 0 0" gives "A", and "A x y" before "B 0 0" gives "B". *)
Theorem malformed_lines_are_discarded (lim : nat) :
  (forall pre l post : string,
      one_line l = true -> well_formed lim l = false ->
      decode_secret_message_from_text lim (pre +:+ LF +:+ l +:+ LF +:+ post)
      = decode_secret_message_from_text lim (pre +:+ LF +:+ post))
  /\ (forall text1 text2 : string,
         filter (well_formed lim) (text_lines text1)
         = filter (well_formed lim) (text_lines text2) ->
         decode_secret_message_from_text lim text1
         = decode_secret_message_from_text lim text2)
  /\ decode_secret_message_from_text lim ("X 1 2 3" +:+ LF +:+ "A 0 0") = Ok "A"
  /\ decode_secret_message_from_text lim ("A x y" +:+ LF +:+ "B 0 0") = Ok "B".
Proof.
  repeat split; try (vm_compute; reflexivity).
  - intros pre l post Hl Hwf. unfold decode_secret_message_from_text.
    rewrite !parse_coords_app_LF, (parse_coords_one_line lim l Hl).
    apply parse_line_well_formed in Hwf. by rewrite Hwf.
  - intros text1 text2 Heq. unfold decode_secret_message_from_text, parse_coords.
    by rewrite <- (omap_parse_well_formed lim (text_lines text1)), Heq,
      omap_parse_well_formed.
Qed.

(** ** Negative coordinates *)

(** The renderer returns exactly when every entry has its cell. *)
Lemma render_returns_iff (coords : list entry) :
  (exists out, render coords = Ok out)
  <-> forallb (fits (height coords) (width coords)) coords = true.
Proof.
  destruct coords as [|e rest]; [by split; eauto|].
  rewrite render_cons.
  destruct (forallb _ (e :: rest)); split; try done; eauto.
  by intros [? ?].
Qed.

Lemma render_raises_IndexError (coords : list entry) (err : exn) :
  render coords = Raise err -> err = IndexError.
Proof.
  destruct coords as [|e rest]; [done|]. rewrite render_cons.
  destruct (forallb _ (e :: rest)); [done|]. by intros [= <-].
Qed.

(** C2.  The renderer is not total: the line "A -1 -1" is parsed as the
    entry (A, -1, -1), the grid built for it is empty, and the assignment
    to its cell raises IndexError. *)
Theorem negative_coordinates_raise (lim : nat) :
  parse_coords lim "A -1 -1" = [("A", -1, -1)]
  /\ decode_secret_message_from_text lim "A -1 -1" = Raise IndexError.
Proof. split; vm_compute; reflexivity. Qed.

(** ** The returned grid *)

Lemma py_max_bounds (coords : list entry) :
  coords <> [] ->
  exists max_x max_y,
    py_max (entry_x <$> coords) = Ok max_x
    /\ py_max (entry_y <$> coords) = Ok max_y
    /\ height coords = Z.to_nat (max_y + 1)
    /\ width coords = Z.to_nat (max_x + 1).
Proof.
  intros Hne. destruct coords as [|e rest]; [done|].
  unfold height, width. simpl. eauto 10.
Qed.

Lemma in_range_positive (n : nat) (i : Z) : in_range n i = true -> (0 < n)%nat.
Proof. intros H%in_range_lt. lia. Qed.

(** What the renderer returns for a non-empty [coords]: the rows of a grid
    that has at least one row and one column. *)
Lemma render_Ok_grid (coords : list entry) (out : string) :
  coords <> [] -> render coords = Ok out ->
  exists g max_x max_y,
    py_max (entry_x <$> coords) = Ok max_x
    /\ py_max (entry_y <$> coords) = Ok max_y
    /\ 0 <= max_x /\ 0 <= max_y
    /\ height coords = Z.to_nat (max_y + 1)
    /\ width coords = Z.to_nat (max_x + 1)
    /\ build_grid coords = Ok g
    /\ out = join_rows g.
Proof.
  intros Hne Hout.
  destruct (render_Ok coords out Hne Hout) as (g & Hg & ->).
  destruct (py_max_bounds coords Hne) as (max_x & max_y & Hx & Hy & Hh & Hw).
  exists g, max_x, max_y.
  destruct (build_grid_Ok coords g Hg) as (_ & Hfits & _).
  destruct coords as [|e rest]; [done|].
  simpl in Hfits. apply andb_true_iff in Hfits as [He _].
  unfold fits in He. apply andb_true_iff in He as [Hey Hex].
  apply in_range_positive in Hey, Hex.
  repeat split; try done; lia.
Qed.

Lemma hits_own_cell h w (e : entry) :
  hits h w e (Z.to_nat (position h (entry_y e)))
    (Z.to_nat (position w (entry_x e))) = true.
Proof. unfold hits. by rewrite !Nat.eqb_refl. Qed.

(** The last entry written to a cell is what the cell holds. *)
Lemma build_grid_last_writer (coords l1 l2 : list entry) (e : entry) g :
  coords = l1 ++ e :: l2 -> build_grid coords = Ok g ->
  let h := height coords in
  let w := width coords in
  let r := Z.to_nat (position h (entry_y e)) in
  let k := Z.to_nat (position w (entry_x e)) in
  Forall (fun e' => hits h w e' r k = false) l2 ->
  (r < h)%nat /\ (k < w)%nat
  /\ g !! r ≫= (fun row => row !! k) = Some (entry_char e).
Proof.
  intros -> Hg h w r k Hl2.
  destruct (build_grid_Ok _ g Hg) as (_ & Hfits & _).
  assert (He : fits h w e = true).
  { rewrite forallb_forall in Hfits. apply Hfits.
    apply in_or_app. right. by left. }
  unfold fits in He. apply andb_true_iff in He as [Hy Hx].
  apply in_range_lt in Hy, Hx.
  repeat split; [done..|].
  rewrite (build_grid_cell _ g r k Hg) by done.
  f_equal. unfold cell.
  apply foldl_write_last; [apply hits_own_cell | done].
Qed.

Lemma append_cons (c : ascii) (s t : string) :
  String c s +:+ t = String c (s +:+ t).
Proof. reflexivity. Qed.

Lemma append_empty_r (s : string) : s +:+ "" = s.
Proof. induction s as [|c s IH]; [done|]. by rewrite append_cons, IH. Qed.

Lemma append_assoc (s t u : string) : (s +:+ t) +:+ u = s +:+ t +:+ u.
Proof. induction s as [|c s IH]; [done|]. by rewrite !append_cons, IH. Qed.

Lemma concat_empty_cons (s : string) (l : list string) :
  String.concat "" (s :: l) = s +:+ String.concat "" l.
Proof. destruct l as [|t l]; simpl; [by rewrite append_empty_r | done]. Qed.

Lemma concat_empty_app (l1 l2 : list string) :
  String.concat "" (l1 ++ l2) = String.concat "" l1 +:+ String.concat "" l2.
Proof.
  induction l1 as [|s l1 IH]; [done|].
  change ((s :: l1) ++ l2) with (s :: (l1 ++ l2)).
  by rewrite !concat_empty_cons, IH, append_assoc.
Qed.

Lemma concat_empty_middle (left right : list string) (c : string) :
  String.concat "" (left ++ c :: right)
  = String.concat "" left +:+ c +:+ String.concat "" right.
Proof.
  by rewrite concat_empty_app, concat_empty_cons.
Qed.

(** An entry's token is the whole first token of a line of the text. *)
Lemma parse_coords_token (lim : nat) (text : string) (e : entry) :
  e ∈ parse_coords lim text ->
  exists line xt yt,
    line ∈ text_lines text /\ split line = [entry_char e; xt; yt]
    /\ py_int lim xt = Some (entry_x e) /\ py_int lim yt = Some (entry_y e).
Proof.
  unfold parse_coords. intros (line & Hin & Hp)%list_elem_of_omap.
  unfold parse_line in Hp.
  destruct (split line) as [|c [|xt [|yt [|? ?]]]] eqn:Hs; try done.
  destruct (py_int lim xt) as [x|] eqn:Hx; [|done].
  destruct (py_int lim yt) as [y|] eqn:Hy; [|done].
  injection Hp as <-. by exists line, xt, yt.
Qed.

Lemma render_nonempty (coords : list entry) :
  coords <> [] ->
  render coords =
    if forallb (fits (height coords) (width coords)) coords
    then Ok (join_rows (table (height coords) (width coords)
                          (cell (height coords) (width coords) coords)))
    else Raise IndexError.
Proof. destruct coords as [|e rest]; [done|]. intros _. apply render_cons. Qed.

Lemma fits_xy h w (e1 e2 : entry) :
  entry_xy e1 = entry_xy e2 -> fits h w e1 = fits h w e2.
Proof. intros [= Hx Hy]. unfold fits. by rewrite Hx, Hy. Qed.

(** An entry that a later entry with the same coordinates follows can be
    taken out of [coords]: the renderer returns, or raises, the same. *)
Lemma render_shadow (l1 l2 l3 : list entry) (e1 e2 : entry) :
  entry_xy e1 = entry_xy e2 ->
  render (l1 ++ e1 :: l2 ++ e2 :: l3) = render (l1 ++ l2 ++ e2 :: l3).
Proof.
  intros Hxy. pose proof Hxy as [= Hx Hy].
  rewrite !render_nonempty by (by destruct l1, l2).
  assert (Hh : height (l1 ++ e1 :: l2 ++ e2 :: l3) = height (l1 ++ l2 ++ e2 :: l3)).
  { apply height_ext. intros v.
    rewrite !fmap_app, !fmap_cons, !fmap_app, !fmap_cons, Hy.
    rewrite !elem_of_app, !elem_of_cons, !elem_of_app, !elem_of_cons. tauto. }
  assert (Hw : width (l1 ++ e1 :: l2 ++ e2 :: l3) = width (l1 ++ l2 ++ e2 :: l3)).
  { apply width_ext. intros v.
    rewrite !fmap_app, !fmap_cons, !fmap_app, !fmap_cons, Hx.
    rewrite !elem_of_app, !elem_of_cons, !elem_of_app, !elem_of_cons. tauto. }
  rewrite Hh, Hw.
  set (h := height (l1 ++ l2 ++ e2 :: l3)). set (w := width (l1 ++ l2 ++ e2 :: l3)).
  assert (Hf : forallb (fits h w) (l1 ++ e1 :: l2 ++ e2 :: l3)
               = forallb (fits h w) (l1 ++ l2 ++ e2 :: l3)).
  { rewrite !forallb_app. simpl. rewrite !forallb_app. simpl.
    rewrite (fits_xy h w e1 e2 Hxy).
    by destruct (forallb (fits h w) l1), (fits h w e2), (forallb (fits h w) l2). }
  rewrite Hf. destruct (forallb (fits h w) (l1 ++ l2 ++ e2 :: l3)); [|done].
  do 2 f_equal. apply table_ext. intros r k _ _. unfold cell.
  rewrite !(foldl_app _ l1). by apply foldl_write_shadow.
Qed.

(** ** Order *)

Lemma nonneg_hits_xy h w (e1 e2 : entry) r k :
  nonneg e1 -> nonneg e2 ->
  hits h w e1 r k = true -> hits h w e2 r k = true -> entry_xy e1 = entry_xy e2.
Proof.
  intros [Hx1 Hy1] [Hx2 Hy2]. unfold hits.
  rewrite !position_nonneg by done.
  intros [Hr1 Hk1]%andb_true_iff [Hr2 Hk2]%andb_true_iff.
  apply Nat.eqb_eq in Hr1, Hk1, Hr2, Hk2.
  unfold entry_xy. f_equal; lia.
Qed.

(** Writes to different cells commute. *)
Lemma foldl_write_Permutation h w r k (c1 c2 : list entry) :
  c1 ≡ₚ c2 -> Forall nonneg c1 -> NoDup (entry_xy <$> c1) ->
  forall v, foldl (write h w r k) v c1 = foldl (write h w r k) v c2.
Proof.
  induction 1 as [|e l l' Hp IH|e1 e2 l|l l' l'' Hp1 IH1 Hp2 IH2];
    intros Hpos Hnd v.
  - done.
  - simpl. apply IH.
    + by inversion Hpos.
    + rewrite fmap_cons in Hnd. by apply NoDup_cons in Hnd as [_ ?].
  - simpl. f_equal. unfold write.
    destruct (hits h w e1 r k) eqn:H1, (hits h w e2 r k) eqn:H2; try done.
    exfalso.
    inversion Hpos as [|? ? Hp2 Hpos']; subst.
    inversion Hpos' as [|? ? Hp1 _]; subst.
    pose proof (nonneg_hits_xy h w e1 e2 r k Hp1 Hp2 H1 H2) as Hxy.
    rewrite !fmap_cons in Hnd. apply NoDup_cons in Hnd as [Hnotin _].
    apply Hnotin. rewrite Hxy. constructor.
  - rewrite IH1 by done. apply IH2.
    + by rewrite <- Hp1.
    + by rewrite <- Hp1.
Qed.

Lemma render_Permutation (c1 c2 : list entry) :
  c1 ≡ₚ c2 -> Forall nonneg c1 -> NoDup (entry_xy <$> c1) ->
  render c1 = render c2.
Proof.
  intros Hp Hpos Hnd.
  destruct c1 as [|e1 r1].
  { apply Permutation_nil_l in Hp. by subst. }
  assert (Hne2 : c2 <> []).
  { intros ->. by apply Permutation_nil_r in Hp. }
  rewrite !render_nonempty by done.
  assert (Hh : height (e1 :: r1) = height c2).
  { apply height_ext. intros v. by rewrite Hp. }
  assert (Hw : width (e1 :: r1) = width c2).
  { apply width_ext. intros v. by rewrite Hp. }
  rewrite Hh, Hw.
  assert (Hf : forallb (fits (height c2) (width c2)) (e1 :: r1)
               = forallb (fits (height c2) (width c2)) c2).
  { apply eq_true_iff_eq. rewrite !forallb_forall.
    split; intros H e He; apply H; rewrite <- !list_elem_of_In in *;
      [by rewrite Hp | by rewrite <- Hp]. }
  rewrite Hf. destruct (forallb _ c2); [|done].
  do 2 f_equal. apply table_ext. intros r k _ _.
  by apply foldl_write_Permutation.
Qed.

(** ** The rows of the returned string *)

Lemma islinebreak_isspace (c : ascii) : islinebreak c = true -> isspace c = true.
Proof.
  unfold islinebreak, isspace. cbv zeta.
  rewrite !orb_true_iff, !andb_true_iff, !N.leb_le, !N.eqb_eq. lia.
Qed.

Lemma all_chars_impl (p q : ascii -> bool) (s : string) :
  (forall c, p c = true -> q c = true) ->
  all_chars p s = true -> all_chars q s = true.
Proof.
  intros Hpq. induction s as [|c s IH]; [done|]. simpl.
  intros [Hc Hs]%andb_true_iff. by rewrite (Hpq c Hc), IH.
Qed.

Lemma all_chars_append (p : ascii -> bool) (s t : string) :
  all_chars p (s +:+ t) = all_chars p s && all_chars p t.
Proof.
  induction s as [|c s IH]; [done|].
  rewrite append_cons. simpl. by rewrite IH, andb_assoc.
Qed.

(** A token is not empty and holds no whitespace. *)
Lemma split_tokens (s : string) :
  Forall (fun t => t <> "" /\ all_chars (fun c => negb (isspace c)) t = true)
    (split s).
Proof.
  induction s as [|c s IH]; [constructor|].
  rewrite split_cons. destruct (isspace c) eqn:Hc; [done|].
  assert (Hone : String c "" <> ""
                 /\ all_chars (fun c => negb (isspace c)) (String c "") = true)
    by (split; [done | simpl; by rewrite Hc]).
  destruct s as [|c' s']; [by constructor|].
  destruct (isspace c'); [by constructor|].
  destruct (split (String c' s')) as [|t ts]; [by constructor|].
  inversion IH as [|? ? [_ Ht] Hts]; subst.
  constructor; [|done]. split; [done|]. simpl. by rewrite Hc, Ht.
Qed.

Lemma token_one_line (t : string) :
  all_chars (fun c => negb (isspace c)) t = true -> one_line t = true.
Proof.
  apply all_chars_impl. intros c Hc.
  destruct (islinebreak c) eqn:Hb; [|done].
  apply islinebreak_isspace in Hb. by rewrite Hb in Hc.
Qed.

Lemma entry_char_one_line (lim : nat) (text : string) (e : entry) :
  e ∈ parse_coords lim text ->
  entry_char e <> "" /\ one_line (entry_char e) = true.
Proof.
  intros (line & xt & yt & _ & Hs & _)%parse_coords_token.
  pose proof (split_tokens line) as Ht. rewrite Hs in Ht.
  inversion Ht as [|? ? [Hne Hc] _]; subst.
  split; [done | by apply token_one_line].
Qed.

Lemma concat_cells_one_line (row : list string) :
  row <> [] ->
  Forall (fun v => v <> "" /\ one_line v = true) row ->
  String.concat "" row <> "" /\ one_line (String.concat "" row) = true.
Proof.
  intros Hne Hrow. destruct row as [|v row]; [done|].
  inversion Hrow as [|? ? [Hv1 Hv2] Hrest]; subst.
  rewrite concat_empty_cons. split.
  - destruct v; [done|]. by rewrite append_cons.
  - unfold one_line. rewrite all_chars_append.
    apply andb_true_iff. split; [done|].
    clear Hrow Hne. induction Hrest as [|u row [_ Hu] _ IH]; [done|].
    rewrite concat_empty_cons, all_chars_append.
    apply andb_true_iff. by split.
Qed.

Lemma splitlines_line_LF (l b : string) :
  l <> "" -> one_line l = true -> splitlines (l +:+ LF +:+ b) = l :: splitlines b.
Proof.
  assert (HLF : splitlines (LF +:+ b) = "" :: splitlines b).
  { change (LF +:+ b) with (String "010" b). rewrite splitlines_cons.
    simpl. by destruct b. }
  induction l as [|c l IH]; [done|]. intros _ [Hc Hl]%andb_true_iff.
  apply negb_true_iff in Hc.
  rewrite append_cons, splitlines_cons, Hc.
  destruct l as [|c' l'].
  - change ("" +:+ LF +:+ b) with (LF +:+ b). by rewrite HLF.
  - by rewrite IH.
Qed.

(** Joining rows with LF and splitting the result gives the rows back,
    when no row is empty or holds a line boundary. *)
Lemma splitlines_concat_LF (rows : list string) :
  Forall (fun l => l <> "" /\ one_line l = true) rows ->
  splitlines (String.concat LF rows) = rows.
Proof.
  induction 1 as [|l rows [Hne Hl] Hrows IH]; [done|].
  destruct rows as [|l' rows'].
  - simpl. rewrite splitlines_one_line by done. by destruct l.
  - change (String.concat LF (l :: l' :: rows'))
      with (l +:+ LF +:+ String.concat LF (l' :: rows')).
    by rewrite splitlines_line_LF, IH.
Qed.

Lemma table_rows_one_line (lim : nat) (text : string) (h w : nat) :
  (0 < w)%nat ->
  Forall (fun l => l <> "" /\ one_line l = true)
    (String.concat "" <$> table h w (cell h w (parse_coords lim text))).
Proof.
  intros Hw. unfold table. apply Forall_fmap, Forall_fmap, Forall_forall.
  intros r _. simpl. apply concat_cells_one_line.
  - destruct w; [lia|]. done.
  - apply Forall_fmap, Forall_forall. intros k _. simpl.
    destruct (cell_value h w (parse_coords lim text) r k)
      as [->|(e & He & _ & ->)]; [done|].
    by apply (entry_char_one_line lim text).
Qed.

(** ** The claims about the grid *)

(** Where a negative entry is written.  A line whose x or y token parses
    as a negative integer is kept as an entry.  When the renderer returns,
    the entry's token is in the cell counted from the end of the grid, row
    [y + max_y + 1] for a negative y and column [x + max_x + 1] for a
    negative x, unless a later entry writes that cell. *)
Theorem negative_entries_count_from_the_end (lim : nat) :
  (forall (line c xt yt : string) (x y : Z),
      split line = [c; xt; yt] ->
      py_int lim xt = Some x -> py_int lim yt = Some y ->
      x < 0 \/ y < 0 ->
      parse_line lim line = Some (c, x, y))
  /\ (forall (text : string) (l1 l2 : list entry) (c : string) (x y : Z)
        (out : string),
         parse_coords lim text = l1 ++ (c, x, y) :: l2 ->
         x < 0 \/ y < 0 ->
         decode_secret_message_from_text lim text = Ok out ->
         exists g max_x max_y,
           py_max (entry_x <$> parse_coords lim text) = Ok max_x
           /\ py_max (entry_y <$> parse_coords lim text) = Ok max_y
           /\ out = join_rows g
           /\ let h := Z.to_nat (max_y + 1) in
              let w := Z.to_nat (max_x + 1) in
              let r := Z.to_nat (if y <? 0 then y + (max_y + 1) else y) in
              let k := Z.to_nat (if x <? 0 then x + (max_x + 1) else x) in
              Forall (fun e => hits h w e r k = false) l2 ->
              g !! r ≫= (fun row => row !! k) = Some c).
Proof.
  split.
  - intros line c xt yt x y Hs Hx Hy _.
    exact (parse_line_keeps lim line c xt yt x y Hs Hx Hy).
  - intros text l1 l2 c x y out Hc _ Hout.
    unfold decode_secret_message_from_text in Hout.
    assert (Hne : parse_coords lim text <> []) by (rewrite Hc; by destruct l1).
    destruct (render_Ok_grid _ out Hne Hout)
      as (g & max_x & max_y & Hmx & Hmy & H0x & H0y & Hh & Hw & Hg & ->).
    exists g, max_x, max_y. repeat split; [done..|].
    intros h w r k Hl2.
    destruct (build_grid_last_writer _ l1 l2 (c, x, y) g Hc Hg) as (_ & _ & Hcell).
    + rewrite Hh, Hw. unfold position, entry_x, entry_y. simpl.
      rewrite !Z2Nat.id by lia. exact Hl2.
    + rewrite Hh, Hw in Hcell. unfold position, entry_x, entry_y in Hcell.
      simpl in Hcell. rewrite !Z2Nat.id in Hcell by lia. exact Hcell.
Qed.

(** C6.  For a text with at least one entry, [max_x] and [max_y] being the
    maxima over the entries: the string the renderer returns is the join
    of the rows of a grid with exactly [max_y + 1] rows of [max_x + 1]
    cells each, in which a cell no entry writes holds a single space; and
    the renderer does return when no coordinate is negative.  In
    particular "Z 2 1" gives a row of three spaces and the row "  Z". *)
Theorem grid_has_the_bounding_dimensions (lim : nat) :
  (forall text : string,
      parse_coords lim text <> [] ->
      exists max_x max_y,
        py_max (entry_x <$> parse_coords lim text) = Ok max_x
        /\ py_max (entry_y <$> parse_coords lim text) = Ok max_y
        /\ (Forall nonneg (parse_coords lim text) ->
            exists out, decode_secret_message_from_text lim text = Ok out)
        /\ forall out,
            decode_secret_message_from_text lim text = Ok out ->
            exists g,
              out = join_rows g
              /\ splitlines out = String.concat "" <$> g
              /\ Z.of_nat (length g) = max_y + 1
              /\ Forall (fun row => Z.of_nat (length row) = max_x + 1) g
              /\ forall r k : nat,
                  Z.of_nat r < max_y + 1 -> Z.of_nat k < max_x + 1 ->
                  Forall (fun e => hits (Z.to_nat (max_y + 1))
                                     (Z.to_nat (max_x + 1)) e r k = false)
                    (parse_coords lim text) ->
                  g !! r ≫= (fun row => row !! k) = Some " ")
  /\ decode_secret_message_from_text lim "Z 2 1" = Ok ("   " +:+ LF +:+ "  Z").
Proof.
  split; [|vm_compute; reflexivity].
  intros text Hne.
  destruct (py_max_bounds _ Hne) as (max_x & max_y & Hmx & Hmy & Hh & Hw).
  exists max_x, max_y. repeat split; [done..| |].
  { intros Hpos. by apply render_nonneg_returns. }
  intros out Hout. unfold decode_secret_message_from_text in Hout.
  destruct (render_Ok_grid _ out Hne Hout)
    as (g & mx & my & Hmx' & Hmy' & H0x & H0y & _ & _ & Hg & ->).
  rewrite Hmx in Hmx'. rewrite Hmy in Hmy'.
  injection Hmx' as <-. injection Hmy' as <-.
  exists g. split; [done|].
  destruct (build_grid_Ok _ g Hg) as (_ & _ & Hgt).
  rewrite Hh, Hw in Hgt. subst g.
  repeat split.
  - rewrite <- Hh, <- Hw. apply splitlines_concat_LF, table_rows_one_line.
    rewrite Hw. lia.
  - rewrite length_table. lia.
  - unfold table. apply Forall_fmap, Forall_forall. intros r _. simpl.
    rewrite length_fmap, length_seq. lia.
  - intros r k Hr Hk Hmiss.
    rewrite table_lookup_cell by lia. f_equal. rewrite <- Hh, <- Hw.
    apply cell_blank. by rewrite Hh, Hw.
Qed.

(** C7.  When two entries have the same (x, y), the later one decides:
    the earlier entry can be taken out of [coords] without changing what
    the renderer returns, and the cell holds the token of the later entry
    unless yet another entry writes that cell after it.  In particular
    "A 0 0" before "B 0 0" gives "B". *)
Theorem later_entry_wins (lim : nat) :
  (forall (text : string) (l1 l2 l3 : list entry) (c1 c2 : string) (x y : Z),
      parse_coords lim text = l1 ++ (c1, x, y) :: l2 ++ (c2, x, y) :: l3 ->
      decode_secret_message_from_text lim text
      = render (l1 ++ l2 ++ (c2, x, y) :: l3)
      /\ forall g,
          build_grid (parse_coords lim text) = Ok g ->
          let h := height (parse_coords lim text) in
          let w := width (parse_coords lim text) in
          let r := Z.to_nat (position h y) in
          let k := Z.to_nat (position w x) in
          Forall (fun e => hits h w e r k = false) l3 ->
          g !! r ≫= (fun row => row !! k) = Some c2)
  /\ decode_secret_message_from_text lim ("A 0 0" +:+ LF +:+ "B 0 0") = Ok "B".
Proof.
  split; [|vm_compute; reflexivity].
  intros text l1 l2 l3 c1 c2 x y Hc. split.
  - unfold decode_secret_message_from_text. rewrite Hc.
    by apply render_shadow.
  - intros g Hg h w r k Hl3.
    assert (Hc' : parse_coords lim text
                  = (l1 ++ (c1, x, y) :: l2) ++ (c2, x, y) :: l3)
      by (by rewrite Hc, <- app_assoc).
    by destruct (build_grid_last_writer _ _ l3 (c2, x, y) g Hc' Hg Hl3)
      as (_ & _ & Hcell).
Qed.

(** C8.  A cell holds the whole token, not its first character.  The
    token of an entry is the whole first token of its line; every cell of
    the returned grid holds a space or the token of an entry; and the
    token of an entry that no later entry overwrites stands in the
    returned string at the place of its cell, between the cells to its
    left and to its right in its row.  In particular "AB 0 0" gives "AB". *)
Theorem cells_hold_whole_tokens (lim : nat) :
  (forall (text : string) (l1 l2 : list entry) (c : string) (x y : Z)
      (out : string),
      parse_coords lim text = l1 ++ (c, x, y) :: l2 ->
      decode_secret_message_from_text lim text = Ok out ->
      (exists line xt yt,
          line ∈ text_lines text /\ split line = [c; xt; yt])
      /\ exists g,
          out = join_rows g
          /\ Forall (Forall (fun v =>
               v = " " \/ exists e, e ∈ parse_coords lim text /\ v = entry_char e)) g
          /\ let h := height (parse_coords lim text) in
             let w := width (parse_coords lim text) in
             let r := Z.to_nat (position h y) in
             let k := Z.to_nat (position w x) in
             Forall (fun e => hits h w e r k = false) l2 ->
             exists above left right below,
               g = above ++ (left ++ c :: right) :: below
               /\ length above = r /\ length left = k
               /\ String.concat "" (left ++ c :: right)
                  = String.concat "" left +:+ c +:+ String.concat "" right)
  /\ decode_secret_message_from_text lim "AB 0 0" = Ok "AB".
Proof.
  split; [|vm_compute; reflexivity].
  intros text l1 l2 c x y out Hc Hout.
  assert (Hin : (c, x, y) ∈ parse_coords lim text).
  { rewrite Hc. apply elem_of_app. right. constructor. }
  split.
  { destruct (parse_coords_token lim text _ Hin) as (line & xt & yt & Hl & Hs & _).
    by exists line, xt, yt. }
  unfold decode_secret_message_from_text in Hout.
  assert (Hne : parse_coords lim text <> []) by (rewrite Hc; by destruct l1).
  destruct (render_Ok _ out Hne Hout) as (g & Hg & ->).
  exists g. split; [done|]. split.
  { destruct (build_grid_Ok _ g Hg) as (_ & _ & ->).
    unfold table. apply Forall_fmap, Forall_forall. intros r _. simpl.
    apply Forall_fmap, Forall_forall. intros k _. simpl.
    destruct (cell_value (height (parse_coords lim text))
                (width (parse_coords lim text)) (parse_coords lim text) r k)
      as [Hv|(e & He & _ & Hv)]; [by left|].
    right. by exists e. }
  intros h w r k Hl2.
  destruct (build_grid_last_writer _ l1 l2 (c, x, y) g Hc Hg Hl2)
    as (_ & _ & Hcell).
  change (g !! r ≫= (fun row => row !! k) = Some c) in Hcell.
  destruct (g !! r) as [row|] eqn:Hrow; [|discriminate Hcell].
  change (row !! k = Some c) in Hcell.
  exists (take r g), (take k row), (drop (S k) row), (drop (S r) g).
  repeat split.
  - rewrite (take_drop_middle row k c Hcell).
    by rewrite (take_drop_middle g r row Hrow).
  - apply length_take_le. apply lookup_lt_Some in Hrow. lia.
  - apply length_take_le. apply lookup_lt_Some in Hcell. lia.
  - apply concat_empty_middle.
Qed.

(** C10.  For a text whose entries all have non-negative coordinates and
    pairwise different (x, y), permuting the lines leaves what the
    renderer returns unchanged. *)
Theorem line_order_is_irrelevant (lim : nat) (text1 text2 : string) :
  splitlines text1 ≡ₚ splitlines text2 ->
  Forall nonneg (parse_coords lim text1) ->
  NoDup (entry_xy <$> parse_coords lim text1) ->
  decode_secret_message_from_text lim text1
  = decode_secret_message_from_text lim text2.
Proof.
  intros Hp Hpos Hnd. unfold decode_secret_message_from_text.
  apply render_Permutation; [|done..].
  unfold parse_coords, text_lines. by rewrite Hp.
Qed.

(** ** Worked instances *)

(** C3.  A line with a negative coordinate is not discarded.  The line
    "A -1 0" is the entry (A, -1, 0); after "B 1 0" its token is written
    with the subscript -1, over the B in the last cell of the row, so the
    text renders to " A" where the text without the line renders to
    " B". *)
Lemma negative_line_is_rendered :
  parse_line default_max_str_digits "A -1 0" = Some ("A", -1, 0)
  /\ decode_secret_message_from_text default_max_str_digits
       ("B 1 0" +:+ LF +:+ "A -1 0") = Ok " A"
  /\ decode_secret_message_from_text default_max_str_digits "B 1 0" = Ok " B"
  /\ decode_secret_message_from_text default_max_str_digits
       ("B 1 0" +:+ LF +:+ "A -1 0")
     <> decode_secret_message_from_text default_max_str_digits "B 1 0".
Proof. repeat split; try (vm_compute; reflexivity). vm_compute. discriminate. Qed.

Lemma negative_entries_count_from_the_end_witness :
  parse_coords default_max_str_digits ("B 1 0" +:+ LF +:+ "A -1 0")
  = [("B", 1, 0)] ++ ("A", -1, 0) :: []
  /\ (-1 < 0 \/ 0 < 0)
  /\ decode_secret_message_from_text default_max_str_digits
       ("B 1 0" +:+ LF +:+ "A -1 0") = Ok " A"
  /\ parse_line default_max_str_digits "A -1 0" = Some ("A", -1, 0)
  /\ exists g,
      " A" = join_rows g
      /\ g !! 0%nat ≫= (fun row => row !! 1%nat) = Some "A".
Proof.
  assert (H1 : parse_coords default_max_str_digits ("B 1 0" +:+ LF +:+ "A -1 0")
               = [("B", 1, 0)] ++ ("A", -1, 0) :: []) by reflexivity.
  assert (H2 : -1 < 0 \/ 0 < 0) by (left; reflexivity).
  assert (H3 : decode_secret_message_from_text default_max_str_digits
                 ("B 1 0" +:+ LF +:+ "A -1 0") = Ok " A") by reflexivity.
  split; [exact H1|]. split; [exact H2|]. split; [exact H3|]. split.
  - exact (proj1 (negative_entries_count_from_the_end default_max_str_digits)
             "A -1 0" "A" "-1" "0" (-1) 0 eq_refl eq_refl eq_refl H2).
  - destruct (proj2 (negative_entries_count_from_the_end default_max_str_digits)
                _ _ _ _ _ _ _ H1 H2 H3)
      as (g & max_x & max_y & Hx & Hy & Hj & Hcell).
    assert (Hmx : max_x = 1) by (vm_compute in Hx; congruence).
    assert (Hmy : max_y = 0) by (vm_compute in Hy; congruence).
    subst max_x max_y.
    exists g. split; [exact Hj|]. exact (Hcell (Forall_nil_2 _)).
Defined.

Lemma malformed_lines_are_discarded_witness :
  one_line "X 1 2 3" = true
  /\ well_formed default_max_str_digits "X 1 2 3" = false
  /\ decode_secret_message_from_text default_max_str_digits
       ("" +:+ LF +:+ "X 1 2 3" +:+ LF +:+ "A 0 0")
     = decode_secret_message_from_text default_max_str_digits
         ("" +:+ LF +:+ "A 0 0")
  /\ filter (well_formed default_max_str_digits)
       (text_lines ("A x y" +:+ LF +:+ "B 0 0"))
     = filter (well_formed default_max_str_digits) (text_lines "B 0 0")
  /\ decode_secret_message_from_text default_max_str_digits
       ("A x y" +:+ LF +:+ "B 0 0")
     = decode_secret_message_from_text default_max_str_digits "B 0 0".
Proof.
  assert (H1 : one_line "X 1 2 3" = true) by reflexivity.
  assert (H2 : well_formed default_max_str_digits "X 1 2 3" = false)
    by reflexivity.
  assert (H3 : filter (well_formed default_max_str_digits)
                 (text_lines ("A x y" +:+ LF +:+ "B 0 0"))
               = filter (well_formed default_max_str_digits)
                   (text_lines "B 0 0")) by reflexivity.
  split; [exact H1|]. split; [exact H2|]. split.
  - exact (proj1 (malformed_lines_are_discarded default_max_str_digits)
             "" "X 1 2 3" "A 0 0" H1 H2).
  - split; [exact H3|].
    exact (proj1 (proj2 (malformed_lines_are_discarded default_max_str_digits))
             _ _ H3).
Defined.

Lemma no_entry_renders_empty_witness :
  (parse_coords default_max_str_digits ("x y" +:+ LF +:+ LF) = []
   \/ blank ("x y" +:+ LF +:+ LF) = true)
  /\ decode_secret_message_from_text default_max_str_digits
       ("x y" +:+ LF +:+ LF) = Ok "".
Proof.
  assert (H : parse_coords default_max_str_digits ("x y" +:+ LF +:+ LF) = []
              \/ blank ("x y" +:+ LF +:+ LF) = true) by (left; reflexivity).
  split; [exact H|].
  exact (no_entry_renders_empty default_max_str_digits _ H).
Defined.

Lemma grid_has_the_bounding_dimensions_witness :
  parse_coords default_max_str_digits "Z 2 1" <> []
  /\ Forall nonneg (parse_coords default_max_str_digits "Z 2 1")
  /\ decode_secret_message_from_text default_max_str_digits "Z 2 1"
     = Ok ("   " +:+ LF +:+ "  Z")
  /\ exists g,
      "   " +:+ LF +:+ "  Z" = join_rows g
      /\ splitlines ("   " +:+ LF +:+ "  Z") = String.concat "" <$> g
      /\ Z.of_nat (length g) = 1 + 1
      /\ Forall (fun row => Z.of_nat (length row) = 2 + 1) g
      /\ g !! 0%nat ≫= (fun row => row !! 0%nat) = Some " ".
Proof.
  assert (H1 : parse_coords default_max_str_digits "Z 2 1" <> [])
    by discriminate.
  assert (H2 : Forall nonneg (parse_coords default_max_str_digits "Z 2 1")).
  { vm_compute. repeat constructor; discriminate. }
  assert (H3 : decode_secret_message_from_text default_max_str_digits "Z 2 1"
               = Ok ("   " +:+ LF +:+ "  Z")) by reflexivity.
  split; [exact H1|]. split; [exact H2|]. split; [exact H3|].
  destruct (proj1 (grid_has_the_bounding_dimensions default_max_str_digits)
              "Z 2 1" H1) as (max_x & max_y & Hx & Hy & _ & Hshape).
  assert (Hmx : max_x = 2) by (vm_compute in Hx; congruence).
  assert (Hmy : max_y = 1) by (vm_compute in Hy; congruence).
  subst max_x max_y.
  destruct (Hshape _ H3) as (g & Hj & Hs & Hl & Hrows & Hblank).
  exists g. split; [exact Hj|]. split; [exact Hs|]. split; [exact Hl|].
  split; [exact Hrows|].
  apply Hblank; [reflexivity | reflexivity |].
  vm_compute. repeat constructor.
Defined.

Lemma later_entry_wins_witness :
  parse_coords default_max_str_digits ("A 0 0" +:+ LF +:+ "B 0 0")
  = [] ++ ("A", 0, 0) :: [] ++ ("B", 0, 0) :: []
  /\ decode_secret_message_from_text default_max_str_digits
       ("A 0 0" +:+ LF +:+ "B 0 0")
     = render ([] ++ [] ++ ("B", 0, 0) :: [])
  /\ [["B"]] !! 0%nat ≫= (fun row => row !! 0%nat) = Some "B".
Proof.
  assert (H : parse_coords default_max_str_digits ("A 0 0" +:+ LF +:+ "B 0 0")
              = [] ++ ("A", 0, 0) :: [] ++ ("B", 0, 0) :: []) by reflexivity.
  pose proof (proj1 (later_entry_wins default_max_str_digits) _ _ _ _ _ _ _ _ H)
    as [Hdecode Hcell].
  split; [exact H|]. split; [exact Hdecode|].
  exact (Hcell [["B"]] eq_refl (Forall_nil_2 _)).
Defined.

Lemma cells_hold_whole_tokens_witness :
  parse_coords default_max_str_digits "AB 0 0" = [] ++ ("AB", 0, 0) :: []
  /\ decode_secret_message_from_text default_max_str_digits "AB 0 0" = Ok "AB"
  /\ (exists line xt yt,
         line ∈ text_lines "AB 0 0" /\ split line = ["AB"; xt; yt])
  /\ exists above left right below,
      "AB" = join_rows (above ++ (left ++ "AB" :: right) :: below)
      /\ length above = 0%nat /\ length left = 0%nat.
Proof.
  assert (H1 : parse_coords default_max_str_digits "AB 0 0"
               = [] ++ ("AB", 0, 0) :: []) by reflexivity.
  assert (H2 : decode_secret_message_from_text default_max_str_digits "AB 0 0"
               = Ok "AB") by reflexivity.
  split; [exact H1|]. split; [exact H2|].
  destruct (proj1 (cells_hold_whole_tokens default_max_str_digits)
              _ _ _ _ _ _ _ H1 H2) as (Htoken & g & Hj & _ & Hplace).
  split; [exact Htoken|].
  destruct (Hplace (Forall_nil_2 _))
    as (above & left & right & below & Hg & Ha & Hl & _).
  exists above, left, right, below.
  split; [by rewrite <- Hg|]. split; [exact Ha | exact Hl].
Defined.

Lemma line_order_is_irrelevant_witness :
  splitlines ("A 0 0" +:+ LF +:+ "B 1 0") ≡ₚ splitlines ("B 1 0" +:+ LF +:+ "A 0 0")
  /\ Forall nonneg (parse_coords default_max_str_digits ("A 0 0" +:+ LF +:+ "B 1 0"))
  /\ NoDup (entry_xy <$> parse_coords default_max_str_digits
                           ("A 0 0" +:+ LF +:+ "B 1 0"))
  /\ decode_secret_message_from_text default_max_str_digits
       ("A 0 0" +:+ LF +:+ "B 1 0")
     = decode_secret_message_from_text default_max_str_digits
         ("B 1 0" +:+ LF +:+ "A 0 0").
Proof.
  assert (H1 : splitlines ("A 0 0" +:+ LF +:+ "B 1 0")
               ≡ₚ splitlines ("B 1 0" +:+ LF +:+ "A 0 0"))
    by (vm_compute; apply perm_swap).
  assert (H2 : Forall nonneg (parse_coords default_max_str_digits
                                ("A 0 0" +:+ LF +:+ "B 1 0"))).
  { vm_compute. repeat constructor; discriminate. }
  assert (H3 : NoDup (entry_xy <$> parse_coords default_max_str_digits
                                     ("A 0 0" +:+ LF +:+ "B 1 0"))).
  { vm_compute. apply NoDup_cons_2; [|apply NoDup_singleton].
    intros Hin. apply list_elem_of_singleton in Hin. discriminate Hin. }
  split; [exact H1|]. split; [exact H2|]. split; [exact H3|].
  exact (line_order_is_irrelevant default_max_str_digits _ _ H1 H2 H3).
Defined.

(** ** Line boundaries *)

Lemma splitlines_break_cons (c : ascii) (b : string) :
  islinebreak c = true ->
  exists T, (T = splitlines b \/ "" :: T = splitlines b)
    /\ splitlines (String c b) = "" :: T.
Proof.
  intros Hc. rewrite splitlines_cons, Hc.
  destruct b as [|c' b']; [exists []; by split; [left|]|].
  destruct ((code c =? 13) && (code c' =? 10))%N eqn:Hm.
  - exists (splitlines b'). split; [|done]. right.
    apply andb_true_iff in Hm as [_ Hc']. apply N.eqb_eq in Hc'.
    rewrite (splitlines_cons c' b').
    unfold islinebreak. rewrite Hc'. simpl. by destruct b'.
  - exists (splitlines (String c' b')). by split; [left|].
Qed.

(** A line boundary in the middle of a text, whichever it is: the lines
    before it, at most one empty line, and the lines after it, without
    their first line when that is empty. *)
Lemma splitlines_app_break (c : ascii) (b : string) :
  islinebreak c = true ->
  forall a, exists pad T,
    (pad = [] \/ pad = [""])
    /\ (T = splitlines b \/ "" :: T = splitlines b)
    /\ splitlines (a +:+ String c b) = splitlines a ++ pad ++ T.
Proof.
  intros Hc.
  destruct (splitlines_break_cons c b Hc) as (T0 & HT0 & Hcb).
  induction a as [|c0|c0 c1 a IHa IHc] using string_pair_ind.
  - exists [""], T0. split; [by right|]. split; [done|]. exact Hcb.
  - change (String c0 "" +:+ String c b) with (String c0 (String c b)).
    rewrite (splitlines_cons c0 (String c b)), (splitlines_cons c0 "").
    destruct (islinebreak c0) eqn:Hc0.
    + destruct ((code c0 =? 13) && (code c =? 10))%N.
      * exists [], (splitlines b). by split; [left|split; [left|]].
      * exists [""], T0. split; [by right|]. split; [done|]. by rewrite Hcb.
    + exists [], T0. split; [by left|]. split; [done|]. by rewrite Hcb.
  - destruct IHa as (pa & Ta & Hpa & HTa & Ha).
    destruct IHc as (pc & Tc & Hpc & HTc & Hc').
    change (String c0 (String c1 a) +:+ String c b)
      with (String c0 (String c1 (a +:+ String c b))).
    change (String c1 a +:+ String c b)
      with (String c1 (a +:+ String c b)) in Hc'.
    rewrite (splitlines_cons c0 (String c1 (a +:+ String c b))).
    rewrite (splitlines_cons c0 (String c1 a)).
    destruct (islinebreak c0) eqn:Hc0.
    + destruct ((code c0 =? 13) && (code c1 =? 10))%N.
      * exists pa, Ta. split; [done|]. split; [done|]. by rewrite Ha.
      * exists pc, Tc. split; [done|]. split; [done|]. by rewrite Hc'.
    + rewrite Hc'.
      destruct (splitlines (String c1 a)) as [|l ls] eqn:Hl.
      { by apply splitlines_cons_not_nil in Hl. }
      exists pc, Tc. by split; [|split].
Qed.

Lemma text_lines_app_break (c : ascii) (a b : string) :
  islinebreak c = true ->
  text_lines (a +:+ String c b) = text_lines a ++ text_lines b.
Proof.
  intros Hc. unfold text_lines.
  destruct (splitlines_app_break c b Hc a) as (pad & T & Hpad & HT & ->).
  rewrite !fmap_app, !filter_app.
  assert (HTb : filter (fun ln => ln <> "") (strip <$> T)
                = filter (fun ln => ln <> "") (strip <$> splitlines b)).
  { destruct HT as [->|<-]; [done|].
    rewrite fmap_cons. by rewrite filter_cons_False by (by intros H; apply H). }
  rewrite HTb. by destruct Hpad as [-> | ->].
Qed.

(** X2.  Every line boundary separates entries alike: with CR, CR LF, VT,
    FF, FS, GS, RS or NEL between two texts, the entries are those of the
    first text followed by those of the second, and the rendering is the
    one with LF between them. *)
Theorem every_line_boundary_separates_entries
  (lim : nat) (c : ascii) (a b : string) :
  islinebreak c = true ->
  parse_coords lim (a +:+ String c b) = parse_coords lim a ++ parse_coords lim b
  /\ decode_secret_message_from_text lim (a +:+ String c b)
     = decode_secret_message_from_text lim (a +:+ LF +:+ b).
Proof.
  intros Hc.
  assert (H : parse_coords lim (a +:+ String c b)
              = parse_coords lim a ++ parse_coords lim b).
  { unfold parse_coords. by rewrite text_lines_app_break, omap_app. }
  split; [exact H|].
  unfold decode_secret_message_from_text.
  by rewrite H, parse_coords_app_LF.
Qed.

(** ** When the renderer raises *)

Lemma py_max_upper (l : list Z) (m : Z) :
  py_max l = Ok m -> Forall (fun v => v <= m) l.
Proof.
  intros Hm. destruct l as [|x xs]; [constructor|].
  destruct (py_max_spec (x :: xs)) as (m' & Hm' & _ & Hle); [done|].
  rewrite Hm in Hm'. by injection Hm' as <-.
Qed.

Lemma in_range_bound (m i : Z) :
  i <= m -> in_range (Z.to_nat (m + 1)) i = true <-> - (m + 1) <= i.
Proof.
  intros Him. unfold in_range, position.
  rewrite andb_true_iff, Z.leb_le, Z.ltb_lt.
  destruct (Z.ltb_spec i 0); lia.
Qed.

Lemma fits_in_bounds (coords : list entry) (max_x max_y : Z) (e : entry) :
  py_max (entry_x <$> coords) = Ok max_x ->
  py_max (entry_y <$> coords) = Ok max_y ->
  e ∈ coords ->
  fits (height coords) (width coords) e = true <-> in_bounds max_x max_y e.
Proof.
  intros Hx Hy Hin. unfold fits, height, width, in_bounds. rewrite Hx, Hy.
  pose proof (py_max_upper _ _ Hx) as Hxs.
  pose proof (py_max_upper _ _ Hy) as Hys.
  rewrite Forall_forall in Hxs, Hys.
  assert (entry_x e <= max_x) by (apply Hxs; by apply list_elem_of_fmap_2).
  assert (entry_y e <= max_y) by (apply Hys; by apply list_elem_of_fmap_2).
  rewrite andb_true_iff, !in_range_bound by done. tauto.
Qed.

Lemma build_grid_within_cons (allocates : nat -> nat -> bool)
  (e : entry) (rest : list entry) :
  build_grid_within allocates (e :: rest) =
    if allocates (height (e :: rest)) (width (e :: rest))
    then build_grid (e :: rest)
    else Raise MemoryError.
Proof. reflexivity. Qed.

Lemma render_within_allocated (allocates : nat -> nat -> bool)
  (coords : list entry) :
  allocates (height coords) (width coords) = true ->
  render_within allocates coords = render coords.
Proof.
  intros Ha. destruct coords as [|e rest]; [done|].
  unfold render_within, render. by rewrite build_grid_within_cons, Ha.
Qed.

Lemma render_within_exhausted (allocates : nat -> nat -> bool)
  (coords : list entry) :
  coords <> [] ->
  allocates (height coords) (width coords) = false ->
  render_within allocates coords = Raise MemoryError.
Proof.
  intros Hne Ha. destruct coords as [|e rest]; [done|].
  unfold render_within. by rewrite build_grid_within_cons, Ha.
Qed.

(** With memory for every grid, the renderer in bounded memory is the
    renderer. *)
Lemma decode_within_unbounded (lim : nat) (text : string) :
  decode_within (fun _ _ => true) lim text
  = decode_secret_message_from_text lim text.
Proof. by apply render_within_allocated. Qed.

(** X1.  The renderer raises MemoryError when the grid of line 67 cannot
    be allocated, and no exception but MemoryError and IndexError.  When
    the grid can be allocated, it raises IndexError exactly when some
    entry has an x below [-(max_x + 1)] or a y below [-(max_y + 1)], its
    subscript counted from the end falling before the first column or
    row, and it returns a string otherwise. *)
Theorem renderer_raises_out_of_memory_or_out_of_bounds
  (allocates : nat -> nat -> bool) (lim : nat) (text : string) :
  (forall err, decode_within allocates lim text = Raise err ->
               err = MemoryError \/ err = IndexError)
  /\ forall max_x max_y,
      py_max (entry_x <$> parse_coords lim text) = Ok max_x ->
      py_max (entry_y <$> parse_coords lim text) = Ok max_y ->
      (allocates (Z.to_nat (max_y + 1)) (Z.to_nat (max_x + 1)) = false ->
       decode_within allocates lim text = Raise MemoryError)
      /\ (allocates (Z.to_nat (max_y + 1)) (Z.to_nat (max_x + 1)) = true ->
          ((exists out, decode_within allocates lim text = Ok out)
           <-> Forall (in_bounds max_x max_y) (parse_coords lim text))
          /\ (~ Forall (in_bounds max_x max_y) (parse_coords lim text) ->
              decode_within allocates lim text = Raise IndexError)).
Proof.
  unfold decode_within. split.
  { intros err Herr.
    destruct (parse_coords lim text) as [|e rest] eqn:Hc; [done|].
    destruct (allocates (height (e :: rest)) (width (e :: rest))) eqn:Ha.
    - rewrite render_within_allocated in Herr by done.
      right. by apply (render_raises_IndexError (e :: rest)).
    - rewrite render_within_exhausted in Herr by done.
      left. by injection Herr as <-. }
  intros max_x max_y Hx Hy.
  assert (Hne : parse_coords lim text <> []).
  { intros Hnil. by rewrite Hnil in Hx. }
  assert (Hh : height (parse_coords lim text) = Z.to_nat (max_y + 1))
    by (unfold height; by rewrite Hy).
  assert (Hw : width (parse_coords lim text) = Z.to_nat (max_x + 1))
    by (unfold width; by rewrite Hx).
  rewrite <- Hh, <- Hw. split.
  { intros Ha. by apply render_within_exhausted. }
  intros Ha. rewrite render_within_allocated by done.
  assert (Hiff : (exists out, render (parse_coords lim text) = Ok out)
                 <-> Forall (in_bounds max_x max_y) (parse_coords lim text)).
  { rewrite render_returns_iff, forallb_forall, Forall_forall.
    split; intros H e He.
    - apply (fits_in_bounds _ _ _ e Hx Hy He), H. by apply list_elem_of_In.
    - apply list_elem_of_In in He.
      by apply (fits_in_bounds _ _ _ e Hx Hy He), H. }
  split; [exact Hiff|].
  intros Hnot. destruct (render (parse_coords lim text)) as [out|err] eqn:Hr.
  - exfalso. apply Hnot, Hiff. by exists out.
  - by rewrite (render_raises_IndexError _ _ Hr).
Qed.

Lemma renderer_raises_out_of_memory_or_out_of_bounds_witness :
  py_max (entry_x <$> parse_coords default_max_str_digits
                        ("A 0 0" +:+ LF +:+ "B -2 0")) = Ok 0
  /\ py_max (entry_y <$> parse_coords default_max_str_digits
                           ("A 0 0" +:+ LF +:+ "B -2 0")) = Ok 0
  /\ ~ Forall (in_bounds 0 0)
         (parse_coords default_max_str_digits ("A 0 0" +:+ LF +:+ "B -2 0"))
  /\ decode_within (fun h w => (h * w <=? 1000)%nat) default_max_str_digits
       ("A 0 0" +:+ LF +:+ "B -2 0") = Raise IndexError
  /\ decode_within (fun h w => (h * w <=? 0)%nat) default_max_str_digits
       ("A 0 0" +:+ LF +:+ "B -2 0") = Raise MemoryError.
Proof.
  assert (H1 : py_max (entry_x <$> parse_coords default_max_str_digits
                                     ("A 0 0" +:+ LF +:+ "B -2 0")) = Ok 0)
    by reflexivity.
  assert (H2 : py_max (entry_y <$> parse_coords default_max_str_digits
                                     ("A 0 0" +:+ LF +:+ "B -2 0")) = Ok 0)
    by reflexivity.
  assert (H3 : ~ Forall (in_bounds 0 0)
                   (parse_coords default_max_str_digits
                      ("A 0 0" +:+ LF +:+ "B -2 0"))).
  { vm_compute. intros H. inversion H as [|? ? _ H']; subst.
    inversion H' as [|? ? [Hx _] _]; subst. apply Hx. reflexivity. }
  split; [exact H1|]. split; [exact H2|]. split; [exact H3|]. split.
  - exact (proj2 (proj2 (proj2 (renderer_raises_out_of_memory_or_out_of_bounds
                                  (fun h w => (h * w <=? 1000)%nat)
                                  default_max_str_digits _) 0 0 H1 H2)
                    eq_refl) H3).
  - exact (proj1 (proj2 (renderer_raises_out_of_memory_or_out_of_bounds
                           (fun h w => (h * w <=? 0)%nat)
                           default_max_str_digits _) 0 0 H1 H2) eq_refl).
Defined.

(** ** Fields *)

Lemma split_blank_app (w s : string) :
  blank w = true -> split (w +:+ s) = split s.
Proof.
  induction w as [|c w IH]; [done|].
  intros [Hc Hw]%andb_true_iff.
  rewrite append_cons, split_cons, Hc. by apply IH.
Qed.

Lemma blank_starts_blank (w s : string) :
  blank w = true -> w <> "" -> starts_blank (w +:+ s).
Proof.
  destruct w as [|c w]; [done|]. intros [Hc _]%andb_true_iff _.
  right. exists c, (w +:+ s). by rewrite append_cons.
Qed.

Lemma blank_or_empty_starts_blank (w : string) :
  blank w = true -> starts_blank w.
Proof.
  destruct w as [|c w]; [by left|]. intros [Hc _]%andb_true_iff.
  right. by exists c, w.
Qed.

Lemma split_token_app (t s : string) :
  is_token t = true -> starts_blank s -> split (t +:+ s) = t :: split s.
Proof.
  unfold is_token. intros [Hne Ht]%andb_true_iff Hs.
  apply negb_true_iff, String.eqb_neq in Hne.
  induction t as [|c t IH]; [done|].
  apply andb_true_iff in Ht as [Hc Ht]. apply negb_true_iff in Hc.
  rewrite append_cons, split_cons, Hc.
  destruct t as [|c1 t'].
  - change ("" +:+ s) with s.
    destruct Hs as [->|(c' & s' & -> & Hc')]; [done|]. by rewrite Hc'.
  - rewrite append_cons, <- append_cons.
    pose proof Ht as Ht'. apply andb_true_iff in Ht' as [Hc1 _].
    apply negb_true_iff in Hc1. rewrite Hc1.
    by rewrite IH.
Qed.

(** X4.  The fields of a line may be separated by any run of whitespace,
    with any whitespace before the first and after the last: the line
    splits into the same three tokens, and is parsed, as with single
    spaces. *)
Theorem fields_split_on_any_whitespace
  (lim : nat) (c xt yt w0 w1 w2 w3 : string) :
  is_token c = true -> is_token xt = true -> is_token yt = true ->
  blank w0 = true ->
  blank w1 = true -> w1 <> "" ->
  blank w2 = true -> w2 <> "" ->
  blank w3 = true ->
  split (w0 +:+ c +:+ w1 +:+ xt +:+ w2 +:+ yt +:+ w3) = [c; xt; yt]
  /\ parse_line lim (w0 +:+ c +:+ w1 +:+ xt +:+ w2 +:+ yt +:+ w3)
     = parse_line lim (c +:+ " " +:+ xt +:+ " " +:+ yt).
Proof.
  intros Hc Hxt Hyt H0 H1 H1' H2 H2' H3.
  assert (Hs : forall u0 u1 u2 u3,
             blank u0 = true -> blank u1 = true -> u1 <> "" ->
             blank u2 = true -> u2 <> "" -> blank u3 = true ->
             split (u0 +:+ c +:+ u1 +:+ xt +:+ u2 +:+ yt +:+ u3) = [c; xt; yt]).
  { intros u0 u1 u2 u3 B0 B1 N1 B2 N2 B3.
    rewrite (split_blank_app u0) by done.
    rewrite (split_token_app c) by (done || by apply blank_starts_blank).
    rewrite (split_blank_app u1) by done.
    rewrite (split_token_app xt) by (done || by apply blank_starts_blank).
    rewrite (split_blank_app u2) by done.
    rewrite (split_token_app yt)
      by (done || by apply blank_or_empty_starts_blank).
    by rewrite split_blank. }
  split; [by apply Hs|].
  assert (Hs' : split (c +:+ " " +:+ xt +:+ " " +:+ yt) = [c; xt; yt]).
  { rewrite <- (Hs "" " " " " "") by done. by rewrite append_empty_r. }
  unfold parse_line. by rewrite (Hs w0 w1 w2 w3), Hs'.
Qed.

Lemma fields_split_on_any_whitespace_witness :
  is_token "Q" = true /\ is_token "+1_2" = true /\ is_token "-3" = true
  /\ split (String "009" " " +:+ "Q" +:+ String "009" "" +:+ "+1_2"
            +:+ "   " +:+ "-3" +:+ String "013" "")
     = ["Q"; "+1_2"; "-3"]
  /\ parse_line default_max_str_digits
       (String "009" " " +:+ "Q" +:+ String "009" "" +:+ "+1_2"
        +:+ "   " +:+ "-3" +:+ String "013" "")
     = Some ("Q", 12, -3).
Proof.
  assert (H1 : is_token "Q" = true) by reflexivity.
  assert (H2 : is_token "+1_2" = true) by reflexivity.
  assert (H3 : is_token "-3" = true) by reflexivity.
  split; [exact H1|]. split; [exact H2|]. split; [exact H3|].
  destruct (fields_split_on_any_whitespace default_max_str_digits
              "Q" "+1_2" "-3" (String "009" " ") (String "009" "") "   "
              (String "013" "") H1 H2 H3 eq_refl eq_refl
              ltac:(discriminate) eq_refl ltac:(discriminate) eq_refl)
    as [Hs Hp].
  split; [exact Hs|]. rewrite Hp. reflexivity.
Defined.

(** ** The lines of the returned string *)

(** What the renderer returns splits into the rows of the table. *)
Lemma decode_Ok_lines (lim : nat) (text out : string) :
  parse_coords lim text <> [] ->
  decode_secret_message_from_text lim text = Ok out ->
  let coords := parse_coords lim text in
  (0 < height coords)%nat /\ (0 < width coords)%nat
  /\ splitlines out
     = String.concat "" <$> table (height coords) (width coords)
                              (cell (height coords) (width coords) coords).
Proof.
  intros Hne Hout coords. unfold decode_secret_message_from_text in Hout.
  destruct (render_Ok_grid _ out Hne Hout)
    as (g & max_x & max_y & _ & _ & H0x & H0y & Hh & Hw & Hg & ->).
  destruct (build_grid_Ok _ g Hg) as (_ & _ & ->).
  fold coords in Hh, Hw |- *.
  assert (Hwpos : (0 < width coords)%nat) by lia.
  repeat split; [lia | done |].
  by apply splitlines_concat_LF, table_rows_one_line.
Qed.

(** X5.  The renderer returns the empty string only when the text has no
    entry: with at least one entry, what it returns is not empty. *)
Theorem empty_string_means_no_entry (lim : nat) (text : string) :
  decode_secret_message_from_text lim text = Ok ""
  <-> parse_coords lim text = [].
Proof.
  split.
  - intros Hout.
    destruct (parse_coords lim text) as [|e rest] eqn:Hc; [done|]. exfalso.
    assert (Hne : parse_coords lim text <> []) by by rewrite Hc.
    destruct (decode_Ok_lines lim text "" Hne Hout) as (Hh & _ & Hl).
    simpl in Hl. symmetry in Hl. apply fmap_nil_inv in Hl.
    apply (f_equal length) in Hl. rewrite length_table in Hl.
    simpl in Hl. lia.
  - intros Hc. unfold decode_secret_message_from_text. by rewrite Hc.
Qed.

Lemma length_append (s t : string) :
  String.length (s +:+ t) = (String.length s + String.length t)%nat.
Proof.
  induction s as [|c s IH]; [done|]. rewrite append_cons. simpl. by rewrite IH.
Qed.

Lemma length_concat_cells (row : list string) :
  Forall (fun v => v <> "") row ->
  (length row <= String.length (String.concat "" row))%nat.
Proof.
  induction 1 as [|v row Hv _ IH]; [done|].
  rewrite concat_empty_cons, length_append. simpl.
  destruct v; [done|]. simpl. lia.
Qed.

Lemma length_concat_single (row : list string) :
  Forall (fun v => String.length v = 1%nat) row ->
  String.length (String.concat "" row) = length row.
Proof.
  induction 1 as [|v row Hv _ IH]; [done|].
  rewrite concat_empty_cons, length_append, Hv, IH. done.
Qed.

Lemma get_concat_single (row : list string) : forall (k : nat) (ch : ascii),
  Forall (fun v => String.length v = 1%nat) row ->
  row !! k = Some (String ch "") ->
  String.get k (String.concat "" row) = Some ch.
Proof.
  induction row as [|v row IH]; intros k ch Hrow Hk; [done|].
  inversion Hrow as [|? ? Hv Hrest]; subst.
  rewrite concat_empty_cons.
  destruct v as [|a [|? ?]]; try done.
  rewrite append_cons. change ("" +:+ String.concat "" row)
    with (String.concat "" row).
  destruct k as [|k]; simpl in *.
  - by injection Hk as ->.
  - by apply IH.
Qed.

Lemma cell_single (lim : nat) (text : string) h w r k :
  Forall single_char (parse_coords lim text) ->
  String.length (cell h w (parse_coords lim text) r k) = 1%nat.
Proof.
  intros Hs.
  destruct (cell_value h w (parse_coords lim text) r k)
    as [->|(e & He & _ & ->)]; [done|].
  rewrite Forall_forall in Hs. by apply Hs.
Qed.

Lemma cell_nonempty (lim : nat) (text : string) h w r k :
  cell h w (parse_coords lim text) r k <> "".
Proof.
  destruct (cell_value h w (parse_coords lim text) r k)
    as [->|(e & He & _ & ->)]; [done|].
  by apply (entry_char_one_line lim text).
Qed.

(** X6.  Every line of what the renderer returns has at least
    [max_x + 1] characters, and exactly that many when every token is a
    single character: then the returned text is a rectangle. *)
Theorem lines_are_at_least_grid_wide
  (lim : nat) (text out : string) (max_x : Z) :
  py_max (entry_x <$> parse_coords lim text) = Ok max_x ->
  decode_secret_message_from_text lim text = Ok out ->
  Forall (fun l => max_x + 1 <= Z.of_nat (String.length l)) (splitlines out)
  /\ (Forall single_char (parse_coords lim text) ->
      Forall (fun l => Z.of_nat (String.length l) = max_x + 1)
        (splitlines out)).
Proof.
  intros Hx Hout.
  assert (Hne : parse_coords lim text <> []).
  { intros Hnil. by rewrite Hnil in Hx. }
  destruct (decode_Ok_lines lim text out Hne Hout) as (_ & Hw & ->).
  assert (Hwx : Z.of_nat (width (parse_coords lim text)) = max_x + 1).
  { revert Hw. unfold width. rewrite Hx. lia. }
  unfold table. split.
  - apply Forall_fmap, Forall_fmap, Forall_forall. intros r _. simpl.
    rewrite <- Hwx.
    pose proof (length_concat_cells
      (cell (height (parse_coords lim text)) (width (parse_coords lim text))
         (parse_coords lim text) r <$> seq 0 (width (parse_coords lim text))))
      as Hlen.
    rewrite length_fmap, length_seq in Hlen.
    apply inj_le, Hlen.
    apply Forall_fmap, Forall_forall. intros k _. simpl.
    apply cell_nonempty.
  - intros Hs. apply Forall_fmap, Forall_fmap, Forall_forall. intros r _.
    simpl. rewrite length_concat_single.
    + by rewrite length_fmap, length_seq.
    + apply Forall_fmap, Forall_forall. intros k _. simpl.
      by apply cell_single.
Qed.

(** X7.  When every token is a single character, the returned text is a
    picture of the grid: the character at column [k] of line [r] is the
    token of the last entry written to cell [(r, k)], and a space when no
    entry is written to it. *)
Theorem single_characters_stand_in_their_column
  (lim : nat) (text out : string) :
  Forall single_char (parse_coords lim text) ->
  decode_secret_message_from_text lim text = Ok out ->
  let coords := parse_coords lim text in
  let h := height coords in
  let w := width coords in
  (forall (l1 l2 : list entry) (ch : ascii) (x y : Z),
      coords = l1 ++ (String ch "", x, y) :: l2 ->
      let r := Z.to_nat (position h y) in
      let k := Z.to_nat (position w x) in
      Forall (fun e => hits h w e r k = false) l2 ->
      exists line, splitlines out !! r = Some line
                   /\ String.get k line = Some ch)
  /\ (forall r k : nat,
         (r < h)%nat -> (k < w)%nat ->
         Forall (fun e => hits h w e r k = false) coords ->
         exists line, splitlines out !! r = Some line
                      /\ String.get k line = Some " "%char).
Proof.
  intros Hs Hout coords h w.
  assert (Hline : forall (r k : nat) (ch : ascii),
             coords <> [] -> (r < h)%nat -> (k < w)%nat ->
             cell h w coords r k = String ch "" ->
             exists line, splitlines out !! r = Some line
                          /\ String.get k line = Some ch).
  { intros r k ch Hne Hr Hk Hcell.
    destruct (decode_Ok_lines lim text out Hne Hout) as (_ & _ & ->).
    fold coords h w.
    exists (String.concat "" (cell h w coords r <$> seq 0 w)). split.
    - by rewrite list_lookup_fmap, table_lookup.
    - apply get_concat_single.
      + apply Forall_fmap, Forall_forall. intros k' _. simpl.
        by apply cell_single.
      + by rewrite list_lookup_fmap, lookup_seq_lt, <- Hcell. }
  split.
  - intros l1 l2 ch x y Hc r k Hl2.
    assert (Hne : coords <> []) by (rewrite Hc; by destruct l1).
    unfold decode_secret_message_from_text in Hout.
    destruct (render_Ok _ out Hne Hout) as (g & Hg & _).
    destruct (build_grid_last_writer _ l1 l2 _ g Hc Hg Hl2) as (Hr & Hk & _).
    apply Hline; [done..|].
    unfold cell. rewrite Hc.
    apply (foldl_write_last h w r k l1 l2 (String ch "", x, y)); [|done].
    apply (hits_own_cell h w (String ch "", x, y)).
  - intros r k Hr Hk Hmiss.
    assert (Hne : coords <> []).
    { intros Hnil. unfold h, height in Hr. rewrite Hnil in Hr. simpl in Hr. lia. }
    apply Hline; [done..|]. by apply cell_blank.
Qed.

(** ** Texts without negative coordinates *)

Lemma nonneg_hits (h w : nat) (e : entry) (r k : nat) :
  nonneg e ->
  hits h w e r k
  = (entry_x e =? Z.of_nat k) && (entry_y e =? Z.of_nat r).
Proof.
  intros [Hx Hy]. unfold hits. rewrite !position_nonneg by done.
  apply eq_true_iff_eq.
  rewrite !andb_true_iff, !Nat.eqb_eq, !Z.eqb_eq. lia.
Qed.

Lemma cell_last_at (h w : nat) (coords : list entry) (r k : nat) :
  Forall nonneg coords ->
  cell h w coords r k = last_at coords (Z.of_nat k) (Z.of_nat r).
Proof.
  unfold cell, last_at. generalize " " as v.
  induction coords as [|e rest IH]; intros v Hpos; [done|].
  inversion Hpos as [|? ? He Hrest]; subst. simpl.
  unfold write at 2. rewrite (nonneg_hits h w e r k He). by apply IH.
Qed.

(** X3.  What the renderer returns for a text without negative
    coordinates is determined cell by cell: it is the join of the rows of
    the grid with [max_y + 1] rows and [max_x + 1] columns whose cell in
    row [r], column [k] holds the token of the last entry with x = k and
    y = r, or a space when there is none. *)
Theorem nonnegative_text_renders_cell_by_cell
  (lim : nat) (text out : string) (max_x max_y : Z) :
  Forall nonneg (parse_coords lim text) ->
  py_max (entry_x <$> parse_coords lim text) = Ok max_x ->
  py_max (entry_y <$> parse_coords lim text) = Ok max_y ->
  decode_secret_message_from_text lim text = Ok out ->
  out = join_rows
          (table (Z.to_nat (max_y + 1)) (Z.to_nat (max_x + 1))
             (fun r k => last_at (parse_coords lim text)
                           (Z.of_nat k) (Z.of_nat r))).
Proof.
  intros Hpos Hx Hy Hout. unfold decode_secret_message_from_text in Hout.
  assert (Hne : parse_coords lim text <> []).
  { intros Hnil. by rewrite Hnil in Hx. }
  destruct (render_Ok _ out Hne Hout) as (g & Hg & ->).
  destruct (build_grid_Ok _ g Hg) as (_ & _ & ->).
  f_equal. unfold height, width. rewrite Hx, Hy.
  apply table_ext. intros r k _ _. by apply cell_last_at.
Qed.

(** ** One more entry *)

Lemma py_max_snoc (l : list Z) (m v : Z) :
  py_max l = Ok m -> v <= m -> py_max (l ++ [v]) = Ok m.
Proof.
  intros Hm Hv.
  assert (Hne : l <> []) by (intros ->; discriminate Hm).
  destruct (py_max_spec l Hne) as (m0 & Hm0 & Hin & _).
  rewrite Hm in Hm0. injection Hm0 as <-.
  pose proof (py_max_upper l m Hm) as Hle.
  destruct (py_max_spec (l ++ [v])) as (m' & Hm' & Hin' & Hle');
    [by destruct l|].
  rewrite Hm'. f_equal.
  rewrite Forall_forall in Hle, Hle'.
  assert (m <= m') by (apply Hle', elem_of_app; by left).
  apply elem_of_app in Hin' as [Hin'|Hin'%list_elem_of_singleton].
  - apply Hle in Hin'. lia.
  - lia.
Qed.

Lemma in_range_below (n : nat) (i : Z) : in_range n i = true -> i < Z.of_nat n.
Proof.
  unfold in_range, position.
  intros [H1 H2]%andb_true_iff. apply Z.leb_le in H1. apply Z.ltb_lt in H2.
  destruct (Z.ltb_spec i 0); lia.
Qed.

Lemma bounds_snoc (coords : list entry) (e : entry) :
  coords <> [] ->
  fits (height coords) (width coords) e = true ->
  height (coords ++ [e]) = height coords
  /\ width (coords ++ [e]) = width coords.
Proof.
  intros Hne [Hy Hx]%andb_true_iff.
  destruct (py_max_bounds coords Hne) as (max_x & max_y & Hmx & Hmy & Hh & Hw).
  pose proof (in_range_below _ _ Hy) as Hy'.
  pose proof (in_range_below _ _ Hx) as Hx'.
  pose proof (in_range_positive _ _ Hy) as Hhpos.
  pose proof (in_range_positive _ _ Hx) as Hwpos.
  unfold height, width. rewrite !fmap_app. simpl.
  rewrite (py_max_snoc _ max_y (entry_y e) Hmy) by lia.
  rewrite (py_max_snoc _ max_x (entry_x e) Hmx) by lia.
  by rewrite Hmx, Hmy.
Qed.

Lemma render_build_grid (coords : list entry) :
  coords <> [] ->
  render coords = build_grid coords ≫= fun g => Ok (join_rows g).
Proof. by destruct coords. Qed.

(** Writing one more entry that has its cell in the grid changes that
    cell of the grid and nothing else. *)
Lemma build_grid_snoc (coords : list entry) (e : entry) g :
  build_grid coords = Ok g ->
  fits (height coords) (width coords) e = true ->
  let r := Z.to_nat (position (height coords) (entry_y e)) in
  let k := Z.to_nat (position (width coords) (entry_x e)) in
  exists row,
    g !! r = Some row
    /\ build_grid (coords ++ [e]) = Ok (<[r := <[k := entry_char e]> row]> g).
Proof.
  intros Hg He r k.
  destruct (build_grid_Ok coords g Hg) as (Hne & Hfits & ->).
  destruct (bounds_snoc coords e Hne He) as [Hh Hw].
  pose proof He as [Hy Hx]%andb_true_iff.
  apply in_range_lt in Hy, Hx.
  exists (cell (height coords) (width coords) coords r
            <$> seq 0 (width coords)).
  split; [by apply table_lookup|].
  rewrite build_grid_table, Hh, Hw by (by destruct coords).
  rewrite forallb_app, Hfits. simpl. rewrite He. simpl. f_equal.
  rewrite table_insert by done.
  apply table_ext. intros r' k' _ _.
  unfold cell. rewrite foldl_app. done.
Qed.

(** X8.  Appending a line whose entry lies within the bounds of the text
    changes one cell of the grid and nothing else: the grid of the longer
    text is the grid of the text with the token written to the entry's
    cell, counted from the end for a negative coordinate. *)
Theorem appended_entry_updates_one_cell
  (lim : nat) (text line c : string) (x y max_x max_y : Z)
  (g : list (list string)) :
  one_line line = true ->
  parse_line lim line = Some (c, x, y) ->
  py_max (entry_x <$> parse_coords lim text) = Ok max_x ->
  py_max (entry_y <$> parse_coords lim text) = Ok max_y ->
  - (max_x + 1) <= x <= max_x ->
  - (max_y + 1) <= y <= max_y ->
  build_grid (parse_coords lim text) = Ok g ->
  let r := Z.to_nat (if y <? 0 then y + (max_y + 1) else y) in
  let k := Z.to_nat (if x <? 0 then x + (max_x + 1) else x) in
  exists row,
    g !! r = Some row
    /\ build_grid (parse_coords lim (text +:+ LF +:+ line))
       = Ok (<[r := <[k := c]> row]> g)
    /\ decode_secret_message_from_text lim (text +:+ LF +:+ line)
       = Ok (join_rows (<[r := <[k := c]> row]> g)).
Proof.
  intros Hline Hparse Hx Hy Hbx Hby Hg r k.
  assert (Hc : parse_coords lim (text +:+ LF +:+ line)
               = parse_coords lim text ++ [(c, x, y)]).
  { by rewrite parse_coords_app_LF, (parse_coords_one_line lim line Hline),
      Hparse. }
  assert (Hh : height (parse_coords lim text) = Z.to_nat (max_y + 1))
    by (unfold height; by rewrite Hy).
  assert (Hw : width (parse_coords lim text) = Z.to_nat (max_x + 1))
    by (unfold width; by rewrite Hx).
  assert (He : fits (height (parse_coords lim text))
                 (width (parse_coords lim text)) (c, x, y) = true).
  { unfold fits. rewrite Hh, Hw. apply andb_true_iff.
    unfold entry_x, entry_y. simpl.
    split; apply in_range_bound; lia. }
  destruct (build_grid_snoc _ (c, x, y) g Hg He) as (row & Hrow & Hgrid).
  assert (Hr : Z.to_nat (position (height (parse_coords lim text)) y) = r).
  { unfold position, r. rewrite Hh, Z2Nat.id by lia. done. }
  assert (Hk : Z.to_nat (position (width (parse_coords lim text)) x) = k).
  { unfold position, k. rewrite Hw, Z2Nat.id by lia. done. }
  unfold entry_x, entry_y, entry_char in Hrow, Hgrid. simpl in Hrow, Hgrid.
  rewrite Hr in Hrow, Hgrid. rewrite Hk in Hgrid.
  exists row. split; [done|]. rewrite Hc. split; [done|].
  unfold decode_secret_message_from_text. rewrite Hc.
  rewrite render_build_grid by (by destruct (parse_coords lim text)).
  exact (f_equal (fun res => res ≫= fun g0 => Ok (join_rows g0)) Hgrid).
Qed.

(** ** The same text twice *)

Lemma foldl_write_cases h w r k (l : list entry) :
  Forall (fun e => hits h w e r k = false) l
  \/ forall v v', foldl (write h w r k) v l = foldl (write h w r k) v' l.
Proof.
  induction l as [|e l IH] using rev_ind; [left; constructor|].
  destruct (hits h w e r k) eqn:He.
  - right. intros v v'. rewrite !foldl_app. simpl. unfold write.
    by rewrite He.
  - destruct IH as [IH|IH].
    + left. apply Forall_app. split; [done|]. by constructor.
    + right. intros v v'. rewrite !foldl_app. simpl. unfold write at 1 3.
      rewrite He. apply IH.
Qed.

Lemma foldl_write_twice h w r k (l : list entry) (v : string) :
  foldl (write h w r k) v (l ++ l) = foldl (write h w r k) v l.
Proof.
  rewrite foldl_app.
  destruct (foldl_write_cases h w r k l) as [Hmiss|Hany].
  - by rewrite !foldl_write_miss.
  - apply Hany.
Qed.

Lemma render_twice (l : list entry) : render (l ++ l) = render l.
Proof.
  destruct l as [|e rest]; [done|].
  rewrite !render_nonempty by done.
  assert (Hh : height ((e :: rest) ++ e :: rest) = height (e :: rest)).
  { apply height_ext. intros v. rewrite fmap_app, elem_of_app. tauto. }
  assert (Hw : width ((e :: rest) ++ e :: rest) = width (e :: rest)).
  { apply width_ext. intros v. rewrite fmap_app, elem_of_app. tauto. }
  rewrite Hh, Hw, forallb_app.
  destruct (forallb _ (e :: rest)); [|done]. simpl.
  do 2 f_equal. apply table_ext. intros r k _ _.
  exact (foldl_write_twice _ _ r k (e :: rest) " ").
Qed.

(** X9.  Rendering is idempotent in the entries: a text followed by
    itself renders, or raises, as the text alone. *)
Theorem text_twice_renders_alike (lim : nat) (text : string) :
  decode_secret_message_from_text lim (text +:+ LF +:+ text)
  = decode_secret_message_from_text lim text.
Proof.
  unfold decode_secret_message_from_text.
  rewrite parse_coords_app_LF. apply render_twice.
Qed.

(** ** More worked instances *)

Lemma every_line_boundary_separates_entries_witness :
  islinebreak "013" = true
  /\ parse_coords default_max_str_digits ("A 0 0" +:+ String "013" "B 1 0")
     = parse_coords default_max_str_digits "A 0 0"
       ++ parse_coords default_max_str_digits "B 1 0"
  /\ decode_secret_message_from_text default_max_str_digits
       ("A 0 0" +:+ String "013" "B 1 0")
     = decode_secret_message_from_text default_max_str_digits
         ("A 0 0" +:+ LF +:+ "B 1 0").
Proof.
  assert (H : islinebreak "013" = true) by reflexivity.
  split; [exact H|].
  exact (every_line_boundary_separates_entries default_max_str_digits
           "013" "A 0 0" "B 1 0" H).
Defined.

Lemma nonnegative_text_renders_cell_by_cell_witness :
  Forall nonneg (parse_coords default_max_str_digits ("A 1 0" +:+ LF +:+ "B 0 1"))
  /\ py_max (entry_x <$> parse_coords default_max_str_digits
                           ("A 1 0" +:+ LF +:+ "B 0 1")) = Ok 1
  /\ py_max (entry_y <$> parse_coords default_max_str_digits
                           ("A 1 0" +:+ LF +:+ "B 0 1")) = Ok 1
  /\ decode_secret_message_from_text default_max_str_digits
       ("A 1 0" +:+ LF +:+ "B 0 1") = Ok (" A" +:+ LF +:+ "B ")
  /\ " A" +:+ LF +:+ "B "
     = join_rows
         (table (Z.to_nat (1 + 1)) (Z.to_nat (1 + 1))
            (fun r k =>
               last_at (parse_coords default_max_str_digits
                          ("A 1 0" +:+ LF +:+ "B 0 1"))
                 (Z.of_nat k) (Z.of_nat r))).
Proof.
  assert (H1 : Forall nonneg (parse_coords default_max_str_digits
                                ("A 1 0" +:+ LF +:+ "B 0 1"))).
  { vm_compute. repeat constructor; discriminate. }
  assert (H2 : py_max (entry_x <$> parse_coords default_max_str_digits
                                     ("A 1 0" +:+ LF +:+ "B 0 1")) = Ok 1)
    by reflexivity.
  assert (H3 : py_max (entry_y <$> parse_coords default_max_str_digits
                                     ("A 1 0" +:+ LF +:+ "B 0 1")) = Ok 1)
    by reflexivity.
  assert (H4 : decode_secret_message_from_text default_max_str_digits
                 ("A 1 0" +:+ LF +:+ "B 0 1") = Ok (" A" +:+ LF +:+ "B "))
    by reflexivity.
  split; [exact H1|]. split; [exact H2|]. split; [exact H3|].
  split; [exact H4|].
  exact (nonnegative_text_renders_cell_by_cell default_max_str_digits
           _ _ 1 1 H1 H2 H3 H4).
Defined.

Lemma lines_are_at_least_grid_wide_witness :
  py_max (entry_x <$> parse_coords default_max_str_digits
                        ("AB 0 0" +:+ LF +:+ "C 2 1")) = Ok 2
  /\ decode_secret_message_from_text default_max_str_digits
       ("AB 0 0" +:+ LF +:+ "C 2 1") = Ok ("AB  " +:+ LF +:+ "  C")
  /\ Forall (fun l => 2 + 1 <= Z.of_nat (String.length l))
       (splitlines ("AB  " +:+ LF +:+ "  C")).
Proof.
  assert (H1 : py_max (entry_x <$> parse_coords default_max_str_digits
                                     ("AB 0 0" +:+ LF +:+ "C 2 1")) = Ok 2)
    by reflexivity.
  assert (H2 : decode_secret_message_from_text default_max_str_digits
                 ("AB 0 0" +:+ LF +:+ "C 2 1") = Ok ("AB  " +:+ LF +:+ "  C"))
    by reflexivity.
  split; [exact H1|]. split; [exact H2|].
  exact (proj1 (lines_are_at_least_grid_wide default_max_str_digits
                  _ _ 2 H1 H2)).
Defined.

Lemma single_characters_stand_in_their_column_witness :
  Forall single_char (parse_coords default_max_str_digits "A 1 0")
  /\ decode_secret_message_from_text default_max_str_digits "A 1 0" = Ok " A"
  /\ (exists line, splitlines " A" !! 0%nat = Some line
                   /\ String.get 1 line = Some "A"%char)
  /\ (exists line, splitlines " A" !! 0%nat = Some line
                   /\ String.get 0 line = Some " "%char).
Proof.
  assert (H1 : Forall single_char (parse_coords default_max_str_digits "A 1 0")).
  { vm_compute. repeat constructor. }
  assert (H2 : decode_secret_message_from_text default_max_str_digits "A 1 0"
               = Ok " A") by reflexivity.
  split; [exact H1|]. split; [exact H2|].
  destruct (single_characters_stand_in_their_column default_max_str_digits
              "A 1 0" " A" H1 H2) as [Hwritten Hblank].
  split.
  - exact (Hwritten [] [] "A"%char 1 0 eq_refl (Forall_nil_2 _)).
  - apply (Hblank 0%nat 0%nat).
    + vm_compute. constructor.
    + vm_compute. repeat constructor.
    + vm_compute. repeat constructor.
Defined.

Lemma appended_entry_updates_one_cell_witness :
  one_line "C -1 0" = true
  /\ parse_line default_max_str_digits "C -1 0" = Some ("C", -1, 0)
  /\ build_grid (parse_coords default_max_str_digits
                   ("A 0 0" +:+ LF +:+ "B 1 0")) = Ok [["A"; "B"]]
  /\ exists row,
      [["A"; "B"]] !! 0%nat = Some row
      /\ build_grid (parse_coords default_max_str_digits
                       (("A 0 0" +:+ LF +:+ "B 1 0") +:+ LF +:+ "C -1 0"))
         = Ok (<[0%nat := <[1%nat := "C"]> row]> [["A"; "B"]])
      /\ decode_secret_message_from_text default_max_str_digits
           (("A 0 0" +:+ LF +:+ "B 1 0") +:+ LF +:+ "C -1 0")
         = Ok (join_rows (<[0%nat := <[1%nat := "C"]> row]> [["A"; "B"]])).
Proof.
  assert (H1 : one_line "C -1 0" = true) by reflexivity.
  assert (H2 : parse_line default_max_str_digits "C -1 0" = Some ("C", -1, 0))
    by reflexivity.
  assert (H3 : build_grid (parse_coords default_max_str_digits
                             ("A 0 0" +:+ LF +:+ "B 1 0")) = Ok [["A"; "B"]])
    by reflexivity.
  split; [exact H1|]. split; [exact H2|]. split; [exact H3|].
  exact (appended_entry_updates_one_cell default_max_str_digits
           ("A 0 0" +:+ LF +:+ "B 1 0") "C -1 0" "C" (-1) 0 1 0 [["A"; "B"]]
           H1 H2 eq_refl eq_refl
           ltac:(split; discriminate) ltac:(split; discriminate) H3).
Defined.
